(** * ATECC608 custom chip: a shallow embedding of [chip-atecc608/atecc608.c]

    The C file keeps one process-wide [static ATECC608 device] and mutates it
    from every function.  Here the device is an explicit record that each
    function takes and returns.  Fixed-width integers are [Z] with the
    wrap-around written out ([u8]); the [uint8_t] arrays are [list Z] that are
    read with stdpp's lookup and updated with [<[i:=x]>] and [list_inserts].

    The libc generator ([srand]/[rand]) is outside the file: it is a Section
    variable giving the n-th output of [rand()] after a given seed. *)

From Stdlib Require Import ZArith Lia Bool.
From stdpp Require Import base list numbers.

Local Open Scope Z_scope.

(** ** Constants of the source *)

Definition CMD_COMMAND : Z := 0x03.
Definition CMD_RANDOM : Z := 0x1B.
Definition CMD_NONCE : Z := 0x16.
Definition CMD_GENKEY : Z := 0x40.
Definition CMD_SIGN : Z := 0x41.
Definition CMD_VERIFY : Z := 0x45.
Definition CMD_READ : Z := 0x02.
Definition CMD_WRITE : Z := 0x12.
Definition CMD_LOCK : Z := 0x17.
Definition CMD_INFO : Z := 0x30.

Definition ZONE_CONFIG : Z := 0x00.
Definition ZONE_OTP : Z := 0x01.
Definition ZONE_DATA : Z := 0x02.

Definition CONFIG_SIZE : Z := 128.
Definition OTP_SIZE : Z := 64.
Definition DATA_SIZE : Z := 1024.
Definition MAX_PACKET_SIZE : Z := 128.

(** ** Machine integers and raw memory *)

(** Conversion to [uint8_t]. *)
Definition u8 (z : Z) : Z := z mod 256.

(** Conversion to [uint16_t]. *)
Definition u16 (z : Z) : Z := z mod 65536.

Definition is_u8 (z : Z) : bool := (0 <=? z) && (z <? 256).

(** [a[i]] for an in-range index; C leaves the out-of-range read undefined,
    the model reads 0 there. *)
Definition byte_at (a : list Z) (i : Z) : Z := default 0 (a !! Z.to_nat i).

(** [memset(a, c, n)] over a whole array of [n] bytes. *)
Definition memset (c n : Z) : list Z := replicate (Z.to_nat n) c.

(** [memcpy(dest + off, src, n)]: bytes [off .. off+n) of [dest] are replaced
    by the first [n] bytes of [src]. *)
Definition memcpy_to (dest : list Z) (off : Z) (src : list Z) (n : Z) : list Z :=
  list_inserts (Z.to_nat off) (take (Z.to_nat n) src) dest.

(** [memcpy(out, src + off, n)]: the [n] bytes copied out of [src]. *)
Definition memcpy_from (src : list Z) (off n : Z) : list Z :=
  take (Z.to_nat n) (drop (Z.to_nat off) src).

(** ** The device *)

Inductive DeviceState : Type := IDLE | SLEEP | ACTIVE.

Record ATECC608 : Type := mkATECC608 {
  state : DeviceState;
  lastError : Z;
  configZone : list Z;
  otpZone : list Z;
  dataZone : list Z;
  commandPacket : list Z;
  responsePacket : list Z;
  packetPos : Z;
  responsePos : Z;
  executionTime : Z
}.

Definition set_lastError (e : Z) (d : ATECC608) : ATECC608 :=
  mkATECC608 (state d) e (configZone d) (otpZone d) (dataZone d)
    (commandPacket d) (responsePacket d) (packetPos d) (responsePos d)
    (executionTime d).

Definition set_configZone (z : list Z) (d : ATECC608) : ATECC608 :=
  mkATECC608 (state d) (lastError d) z (otpZone d) (dataZone d)
    (commandPacket d) (responsePacket d) (packetPos d) (responsePos d)
    (executionTime d).

Definition set_otpZone (z : list Z) (d : ATECC608) : ATECC608 :=
  mkATECC608 (state d) (lastError d) (configZone d) z (dataZone d)
    (commandPacket d) (responsePacket d) (packetPos d) (responsePos d)
    (executionTime d).

Definition set_dataZone (z : list Z) (d : ATECC608) : ATECC608 :=
  mkATECC608 (state d) (lastError d) (configZone d) (otpZone d) z
    (commandPacket d) (responsePacket d) (packetPos d) (responsePos d)
    (executionTime d).

Definition set_commandPacket (p : list Z) (d : ATECC608) : ATECC608 :=
  mkATECC608 (state d) (lastError d) (configZone d) (otpZone d) (dataZone d)
    p (responsePacket d) (packetPos d) (responsePos d) (executionTime d).

Definition set_responsePacket (p : list Z) (d : ATECC608) : ATECC608 :=
  mkATECC608 (state d) (lastError d) (configZone d) (otpZone d) (dataZone d)
    (commandPacket d) p (packetPos d) (responsePos d) (executionTime d).

Definition set_packetPos (n : Z) (d : ATECC608) : ATECC608 :=
  mkATECC608 (state d) (lastError d) (configZone d) (otpZone d) (dataZone d)
    (commandPacket d) (responsePacket d) n (responsePos d) (executionTime d).

Definition set_responsePos (n : Z) (d : ATECC608) : ATECC608 :=
  mkATECC608 (state d) (lastError d) (configZone d) (otpZone d) (dataZone d)
    (commandPacket d) (responsePacket d) (packetPos d) n (executionTime d).

(** What a C static holds before [chip_init] runs: all zero. *)
Definition static_device : ATECC608 :=
  mkATECC608 IDLE 0 (memset 0 CONFIG_SIZE) (memset 0 OTP_SIZE)
    (memset 0 DATA_SIZE) (memset 0 MAX_PACKET_SIZE) (memset 0 MAX_PACKET_SIZE)
    0 0 0.

(** The device part of [atecc608_init]; the command and response buffers are
    not touched by the source. *)
Definition init_device (d : ATECC608) : ATECC608 :=
  let config := memset 0xFF CONFIG_SIZE in
  let config := <[0%nat := 0x01]> config in
  let config := <[1%nat := 0x23]> config in
  mkATECC608 IDLE 0 config (memset 0 OTP_SIZE) (memset 0 DATA_SIZE)
    (commandPacket d) (responsePacket d) 0 0 0.

(** The three zones, the two packet buffers and the cursors have the sizes and
    ranges their C types give them. *)
Definition well_formed (d : ATECC608) : bool :=
  (length (configZone d) =? Z.to_nat CONFIG_SIZE)%nat
  && (length (otpZone d) =? Z.to_nat OTP_SIZE)%nat
  && (length (dataZone d) =? Z.to_nat DATA_SIZE)%nat
  && (length (commandPacket d) =? Z.to_nat MAX_PACKET_SIZE)%nat
  && (length (responsePacket d) =? Z.to_nat MAX_PACKET_SIZE)%nat
  && forallb is_u8 (configZone d)
  && forallb is_u8 (otpZone d)
  && forallb is_u8 (dataZone d)
  && forallb is_u8 (commandPacket d)
  && forallb is_u8 (responsePacket d)
  && is_u8 (lastError d)
  && is_u8 (packetPos d)
  && is_u8 (responsePos d).

(** ** Zone memory *)

(** The pointer [source]/[dest] that the [switch] of [read] and [write]
    selects. *)
Inductive ZonePtr : Type := PtrConfig | PtrOtp | PtrData.

Definition zone_switch (zone : Z) : option (ZonePtr * Z) :=
  match Z.land zone 0x03 with
  | 0 => Some (PtrConfig, CONFIG_SIZE)
  | 1 => Some (PtrOtp, OTP_SIZE)
  | 2 => Some (PtrData, DATA_SIZE)
  | _ => None
  end.

Definition zone_load (d : ATECC608) (p : ZonePtr) : list Z :=
  match p with
  | PtrConfig => configZone d
  | PtrOtp => otpZone d
  | PtrData => dataZone d
  end.

Definition zone_store (p : ZonePtr) (z : list Z) (d : ATECC608) : ATECC608 :=
  match p with
  | PtrConfig => set_configZone z d
  | PtrOtp => set_otpZone z d
  | PtrData => set_dataZone z d
  end.

(** [read]: [Some bytes] stands for [true] with [bytes] copied to [data]. *)
Definition read (d : ATECC608) (zone address len : Z)
  : option (list Z) * ATECC608 :=
  if 32 <? len then (None, set_lastError 1 d)
  else
    match zone_switch zone with
    | None => (None, set_lastError 2 d)
    | Some (source, max_len) =>
        if max_len <? address + len then (None, set_lastError 3 d)
        else (Some (memcpy_from (zone_load d source) address len), d)
    end.

Definition write (d : ATECC608) (zone address : Z) (data : list Z) (len : Z)
  : bool * ATECC608 :=
  if 32 <? len then (false, set_lastError 1 d)
  else
    match zone_switch zone with
    | None => (false, set_lastError 2 d)
    | Some (dest, max_len) =>
        if max_len <? address + len then (false, set_lastError 3 d)
        else
          (true, zone_store dest (memcpy_to (zone_load d dest) address data len) d)
    end.

Definition lockConfigZone (d : ATECC608) : bool * ATECC608 :=
  (true, set_configZone (<[87%nat := 0x00]> (configZone d)) d).

Definition lockDataAndOTPZones (d : ATECC608) : bool * ATECC608 :=
  (true, set_configZone (<[86%nat := 0x00]> (configZone d)) d).

Definition isConfigLocked (d : ATECC608) : bool :=
  bool_decide (configZone d !! 87%nat = Some 0x00).

Definition isDataAndOTPLocked (d : ATECC608) : bool :=
  bool_decide (configZone d !! 86%nat = Some 0x00).

(** ** Key store *)

Definition storeKey (d : ATECC608) (key_id : Z) (key : list Z) (key_type : Z)
  : bool * ATECC608 :=
  if 16 <=? key_id then (false, set_lastError 8 d)
  else
    let address := u16 (32 * key_id) in
    write d ZONE_DATA address key 32.

Definition computeHMAC (d : ATECC608) (key_id : Z) (message : list Z)
  : option (list Z) * ATECC608 :=
  match read d ZONE_DATA (u16 (32 * key_id)) 32 with
  | (None, d') => (None, d')
  | (Some key, d') =>
      (Some ((fun i => u8 (Z.lxor (byte_at key i) (byte_at message i)))
               <$> seqZ 0 32), d')
  end.

Definition deriveKey (d : ATECC608) (parent_key_id : Z)
  : option (list Z) * ATECC608 :=
  match read d ZONE_DATA (u16 (32 * parent_key_id)) 32 with
  | (None, d') => (None, d')
  | (Some parent_key, d') =>
      (Some ((fun i => u8 (Z.lxor (byte_at parent_key i) (i + 1)))
               <$> seqZ 0 32), d')
  end.

(** ** Response side of the framer *)

Definition simulateExecutionTime (duration : Z) (d : ATECC608) : ATECC608 :=
  mkATECC608 (state d) (lastError d) (configZone d) (otpZone d) (dataZone d)
    (commandPacket d) (responsePacket d) (packetPos d) (responsePos d) duration.

Definition setResponse (data : list Z) (len : Z) (d : ATECC608) : ATECC608 :=
  set_responsePos 0
    (set_responsePacket (memcpy_to (responsePacket d) 0 data len) d).

Definition atecc608_read_byte (d : ATECC608) : Z * ATECC608 :=
  if responsePos d <? MAX_PACKET_SIZE then
    (byte_at (responsePacket d) (responsePos d),
     set_responsePos (u8 (responsePos d + 1)) d)
  else (0, d).

(** ** The world around the device

    [rng_seed] and [rng_calls] are the state of the libc generator: the seed
    last given to [srand] and the number of [rand()] calls since.
    [dispatches] is a ghost counter, absent from the C code: it counts the
    calls of [processCommand], so that "dispatched exactly once" can be
    stated. *)

Record World : Type := mkWorld {
  device : ATECC608;
  rng_seed : Z;
  rng_calls : nat;
  dispatches : nat
}.

Definition with_device (d : ATECC608) (w : World) : World :=
  mkWorld d (rng_seed w) (rng_calls w) (dispatches w).

(** [srand(seed)], the argument converted to [unsigned int]. *)
Definition srand (seed : Z) (w : World) : World :=
  mkWorld (device w) (seed mod 2 ^ 32) 0 (dispatches w).

(** [atecc608_init]; [now] is what [time(NULL)] returns. *)
Definition atecc608_init (now : Z) (w : World) : World :=
  srand now (with_device (init_device (device w)) w).

Definition atecc608_reset (now : Z) (w : World) : World :=
  atecc608_init now w.

(** The program before and after [chip_init]. *)
Definition static_world : World := mkWorld static_device 1 0 0.

Definition power_on (now : Z) : World := atecc608_init now static_world.

(** Lifting of a device-only function that returns a value. *)
Definition on_device {A : Type} (f : ATECC608 -> A * ATECC608) (w : World)
  : A * World :=
  let '(a, d) := f (device w) in (a, with_device d w).

Section Framer.

(** [libc_rand seed n]: the value of the [n]-th call of [rand()] after
    [srand(seed)]. *)
Variable libc_rand : Z -> nat -> Z.

Definition rand (w : World) : Z * World :=
  (libc_rand (rng_seed w) (rng_calls w),
   mkWorld (device w) (rng_seed w) (S (rng_calls w)) (dispatches w)).

(** The loop of [generateRandomNumber], [n] iterations left; the bytes are
    returned in the order they are stored in [random]. *)
Fixpoint generateRandomNumber_loop (n : nat) (w : World) : list Z * World :=
  match n with
  | O => ([], w)
  | S n' =>
      let '(r, w1) := rand w in
      let '(rest, w2) := generateRandomNumber_loop n' w1 in
      (u8 (Z.land r 0xFF) :: rest, w2)
  end.

Definition generateRandomNumber (length : Z) (w : World) : list Z * World :=
  generateRandomNumber_loop (Z.to_nat length) w.

Definition generatePrivateKey (key_id key_type : Z) (w : World) : bool * World :=
  let '(private_key, w1) := generateRandomNumber 32 w in
  on_device (fun d => storeKey d key_id private_key key_type) w1.

Definition processCommand (w : World) : World :=
  let w := mkWorld (device w) (rng_seed w) (rng_calls w) (S (dispatches w)) in
  let d := device w in
  let command := byte_at (commandPacket d) 2 in
  if command =? CMD_RANDOM then
    let '(random, w1) := generateRandomNumber 32 w in
    let d1 := device w1 in
    let d2 := set_responsePacket (memcpy_to (responsePacket d1) 1 random 32) d1 in
    let d3 := setResponse (responsePacket d2) 33 d2 in
    with_device (simulateExecutionTime 23 d3) w1
  else if command =? CMD_NONCE then with_device (simulateExecutionTime 7 d) w
  else if command =? CMD_GENKEY then with_device (simulateExecutionTime 115 d) w
  else if command =? CMD_SIGN then with_device (simulateExecutionTime 60 d) w
  else if command =? CMD_VERIFY then with_device (simulateExecutionTime 72 d) w
  else if command =? CMD_READ then with_device (simulateExecutionTime 1 d) w
  else if command =? CMD_WRITE then with_device (simulateExecutionTime 26 d) w
  else if command =? CMD_LOCK then with_device (simulateExecutionTime 32 d) w
  else if command =? CMD_INFO then with_device (simulateExecutionTime 1 d) w
  else with_device (set_lastError 7 d) w.

Definition atecc608_write_byte (byte : Z) (w : World) : World :=
  let d := device w in
  let d1 :=
    if packetPos d <? MAX_PACKET_SIZE then
      set_packetPos (u8 (packetPos d + 1))
        (set_commandPacket
           (<[Z.to_nat (packetPos d) := byte]> (commandPacket d)) d)
    else d in
  let w1 := with_device d1 w in
  if packetPos d1 =? 1 then
    if byte =? 0x03 then with_device (set_packetPos 0 d1) w1 else w1
  else if (1 <? packetPos d1) && (byte_at (commandPacket d1) 0 =? CMD_COMMAND)
  then
    if packetPos d1 =? byte_at (commandPacket d1) 1 then
      let w2 := processCommand w1 in
      with_device (set_packetPos 0 (device w2)) w2
    else w1
  else w1.

(** The bus collaborator delivering a sequence of bytes, first byte first. *)
Definition deliver (bytes : list Z) (w : World) : World :=
  foldl (fun w b => atecc608_write_byte b w) w bytes.

(** ** The operations of the model, as data *)

Inductive Op : Type :=
| OpRead (zone address len : Z)
| OpWrite (zone address : Z) (data : list Z) (len : Z)
| OpLockConfig
| OpLockDataAndOTP
| OpIsConfigLocked
| OpIsDataAndOTPLocked
| OpStoreKey (key_id : Z) (key : list Z) (key_type : Z)
| OpGeneratePrivateKey (key_id key_type : Z)
| OpComputeHMAC (key_id : Z) (message : list Z)
| OpDeriveKey (parent_key_id : Z)
| OpProcessCommand
| OpWriteByte (byte : Z)
| OpReadByte.

(** One operation, its result dropped. *)
Definition exec (o : Op) (w : World) : World :=
  match o with
  | OpRead zone address len =>
      with_device (snd (read (device w) zone address len)) w
  | OpWrite zone address data len =>
      with_device (snd (write (device w) zone address data len)) w
  | OpLockConfig => with_device (snd (lockConfigZone (device w))) w
  | OpLockDataAndOTP => with_device (snd (lockDataAndOTPZones (device w))) w
  | OpIsConfigLocked => w
  | OpIsDataAndOTPLocked => w
  | OpStoreKey key_id key key_type =>
      with_device (snd (storeKey (device w) key_id key key_type)) w
  | OpGeneratePrivateKey key_id key_type =>
      snd (generatePrivateKey key_id key_type w)
  | OpComputeHMAC key_id message =>
      with_device (snd (computeHMAC (device w) key_id message)) w
  | OpDeriveKey parent_key_id =>
      with_device (snd (deriveKey (device w) parent_key_id)) w
  | OpProcessCommand => processCommand w
  | OpWriteByte byte => atecc608_write_byte byte w
  | OpReadByte => with_device (snd (atecc608_read_byte (device w))) w
  end.

Definition run (ops : list Op) (w : World) : World :=
  foldl (fun w o => exec o w) w ops.

End Framer.

(** ** Predicates and sample values used by the properties *)

(** The sizes and ranges of [well_formed], as propositions. *)
Record WellFormed (d : ATECC608) : Prop := {
  wf_config_length : length (configZone d) = 128%nat;
  wf_otp_length : length (otpZone d) = 64%nat;
  wf_data_length : length (dataZone d) = 1024%nat;
  wf_command_length : length (commandPacket d) = 128%nat;
  wf_response_length : length (responsePacket d) = 128%nat;
  wf_data_bytes : forallb is_u8 (dataZone d) = true;
  wf_packetPos : 0 <= packetPos d < 256;
  wf_responsePos : 0 <= responsePos d < 256
}.

(** The three zones hold the same bytes in [d] and in [d']. *)
Definition same_zones (d d' : ATECC608) : Prop :=
  configZone d' = configZone d /\ otpZone d' = otpZone d
  /\ dataZone d' = dataZone d.

(** The zone and size that the low two bits of a tag select. *)
Definition selects (zone size : Z) : Prop :=
  (Z.land zone 0x03 = ZONE_CONFIG /\ size = CONFIG_SIZE)
  \/ (Z.land zone 0x03 = ZONE_OTP /\ size = OTP_SIZE)
  \/ (Z.land zone 0x03 = ZONE_DATA /\ size = DATA_SIZE).

(** The device right after [chip_init], the state used by the concrete
    examples below. *)
Definition fresh_device : ATECC608 := init_device static_device.

(** [unlocks k o]: [o] is a [write] whose tag selects the config zone, whose
    range covers config byte [k] and whose byte for that place is not 0. *)
Definition unlocks (k : Z) (o : Op) : bool :=
  match o with
  | OpWrite zone address data len =>
      (Z.land zone 0x03 =? ZONE_CONFIG)
      && (address <=? k) && (k <? address + len)
      && negb (byte_at data (k - address) =? 0x00)
  | _ => false
  end.

(** The states the framer can be in once [chip_init] has run and bytes have
    been delivered: the cursor is 0, or byte 0 of the command buffer is not
    the command marker. *)
Definition marker_never_kept (d : ATECC608) : Prop :=
  0 <= packetPos d
  /\ (packetPos d = 0 \/ byte_at (commandPacket d) 0 <> CMD_COMMAND).

(** A stand-in for the libc generator and a sequence of operations, for the
    concrete examples. *)
Definition sample_rand (seed : Z) (n : nat) : Z := seed + Z.of_nat n.

Definition sample_ops : list Op :=
  [ OpWrite ZONE_CONFIG 80 (replicate 6 0x55) 6;
    OpWrite ZONE_CONFIG 86 [0x00; 0x00] 2;
    OpWrite ZONE_DATA 86 [0x55; 0x55] 2;
    OpStoreKey 2 (replicate 32 0x77) 0x04;
    OpGeneratePrivateKey 3 0x04;
    OpComputeHMAC 3 (replicate 32 0x0F);
    OpDeriveKey 3;
    OpWriteByte 0x03;
    OpWriteByte 0x1B;
    OpProcessCommand;
    OpReadByte;
    OpRead ZONE_CONFIG 64 32;
    OpLockDataAndOTP;
    OpLockConfig ].

(** ** The rest of the file: CRC, command sending, signatures

    These functions have no caller inside the file; they are modelled like
    the others. *)

(** The body of the [for] loop of [calculateCRC]: one byte folded into the
    16-bit register.  Every assignment to [crc_register] converts to
    [uint16_t]; the operands are promoted to [int], where none of the shifts
    overflows. *)
Definition crc_round (crc byte : Z) : Z :=
  let crc_register := u16 (Z.lor (u8 (Z.shiftr crc 8)) (Z.shiftl crc 8)) in
  let crc_register := u16 (Z.lxor crc_register byte) in
  let crc_register :=
    u16 (Z.lxor crc_register (Z.shiftr (u8 (Z.land crc_register 0xff)) 4)) in
  let crc_register :=
    u16 (Z.lxor crc_register (Z.shiftl (Z.shiftl crc_register 8) 4)) in
  let crc_register :=
    u16 (Z.lxor crc_register
           (Z.shiftl (Z.shiftl (Z.land crc_register 0xff) 4) 1)) in
  crc_register.

(** The loop of [calculateCRC] with its [uint8_t counter], which wraps to 0
    after 255, compared against the [size_t length].  [fuel] bounds the number
    of loop tests; [None] is "still running". *)
Fixpoint calculateCRC_loop (fuel : nat) (data : list Z) (length crc counter : Z)
  : option Z :=
  match fuel with
  | O => None
  | S fuel' =>
      if counter <? length then
        calculateCRC_loop fuel' data length
          (crc_round crc (byte_at data counter)) (u8 (counter + 1))
      else Some crc
  end.

(** [calculateCRC].  257 loop tests are enough to tell: the loop ends within
    256 tests or not at all ([calculateCRC_loop_returns] and
    [calculateCRC_loop_runs_forever] below), so [None] here is a call that
    does not return. *)
Definition calculateCRC (data : list Z) (length : Z) : option Z :=
  calculateCRC_loop 257 data length 0 0.

(** Conversion to [size_t], 32 bits wide on the wasm32 target of the chip. *)
Definition to_size_t (z : Z) : Z := z mod 2 ^ 32.

(** The locals [command], [p1] and [p2] that [processCommand] decodes from the
    command buffer. *)
Definition frame_command (d : ATECC608) : Z := byte_at (commandPacket d) 2.

Definition frame_p1 (d : ATECC608) : Z := byte_at (commandPacket d) 3.

Definition frame_p2 (d : ATECC608) : Z :=
  u16 (Z.lor (Z.shiftl (byte_at (commandPacket d) 5) 8)
         (byte_at (commandPacket d) 4)).

(** [simulateVerification] ignores both arguments. *)
Definition simulateVerification (message signature : list Z) : bool := true.

(** The bus collaborator pulling [n] response bytes, first byte first. *)
Fixpoint take_response (n : nat) (d : ATECC608) : list Z * ATECC608 :=
  match n with
  | O => ([], d)
  | S n' =>
      let '(b, d1) := atecc608_read_byte d in
      let '(rest, d2) := take_response n' d1 in
      (b :: rest, d2)
  end.

Section Sending.

Variable libc_rand : Z -> nat -> Z.

(** [sendCommand]; [data] is [None] for a null pointer.  The result is [None]
    when [calculateCRC] does not return.  With [dataLen] above 121 the C code
    writes past the end of [commandPacket]; the model drops such writes, and
    the properties below are stated for [dataLen <= 121]. *)
Definition sendCommand
    (command p1 p2 : Z) (data : option (list Z)) (dataLen : Z) (w : World)
  : option (bool * World) :=
  let d := device w in
  let count := u8 (7 + dataLen) in
  let packet := <[0%nat := CMD_COMMAND]> (commandPacket d) in
  let packet := <[1%nat := count]> packet in
  let packet := <[2%nat := command]> packet in
  let packet := <[3%nat := p1]> packet in
  let packet := <[4%nat := u8 (Z.land p2 0xFF)]> packet in
  let packet := <[5%nat := u8 (Z.shiftr p2 8)]> packet in
  let packet :=
    match data with
    | Some bytes =>
        if 0 <? dataLen then memcpy_to packet 6 bytes dataLen else packet
    | None => packet
    end in
  match calculateCRC (drop 1 packet) (to_size_t (count - 2)) with
  | None => None
  | Some crc =>
      let packet := <[Z.to_nat (count - 1) := u8 crc]> packet in
      Some (true,
            processCommand libc_rand (with_device (set_commandPacket packet d) w))
  end.

(** The loop of [simulateSignature], [n] iterations left, at index [i]. *)
Fixpoint simulateSignature_loop (n : nat) (i : Z) (message : list Z) (w : World)
  : list Z * World :=
  match n with
  | O => ([], w)
  | S n' =>
      let '(r, w1) := rand libc_rand w in
      let '(rest, w2) := simulateSignature_loop n' (u8 (i + 1)) message w1 in
      (u8 (Z.lxor (byte_at message (i mod 32)) (Z.land r 0xFF)) :: rest, w2)
  end.

Definition simulateSignature (message : list Z) (w : World) : list Z * World :=
  simulateSignature_loop 64 0 message w.

End Sending.

(** ** Reference definitions and predicates for the further properties *)

(** One step of the textbook bit-serial CRC-16, most significant bit first,
    with generator polynomial [poly]. *)
Definition crc_bit_step (poly x : Z) : Z :=
  if Z.testbit x 15 then u16 (Z.lxor (Z.shiftl x 1) poly)
  else u16 (Z.shiftl x 1).

(** The bit-serial CRC of one byte: the byte is added to the high half of the
    register, then eight steps follow. *)
Definition crc_bitwise_byte (poly crc byte : Z) : Z :=
  Nat.iter 8 (crc_bit_step poly) (Z.lxor crc (Z.shiftl byte 8)).

(** The bit-serial CRC of a message, register initially 0. *)
Definition crc_bitwise (poly : Z) (bytes : list Z) : Z :=
  foldl (crc_bitwise_byte poly) 0 bytes.

(** The cursors are inside the 128-byte packet buffers, or just past them. *)
Definition cursors_in_bounds (d : ATECC608) : bool :=
  (packetPos d <=? MAX_PACKET_SIZE) && (responsePos d <=? MAX_PACKET_SIZE).

(** The arguments of an operation have the values their C types allow, and
    the buffers passed in are as long as the operation reads. *)
Definition op_typed (o : Op) : bool :=
  match o with
  | OpRead zone address len => is_u8 zone && is_u8 len
  | OpWrite zone address data len =>
      is_u8 zone && is_u8 len && forallb is_u8 data
      && (Z.to_nat len <=? length data)%nat
  | OpStoreKey key_id key key_type =>
      is_u8 key_id && is_u8 key_type && forallb is_u8 key
      && (32 <=? length key)%nat
  | OpGeneratePrivateKey key_id key_type => is_u8 key_id && is_u8 key_type
  | OpComputeHMAC key_id message =>
      is_u8 key_id && forallb is_u8 message && (32 <=? length message)%nat
  | OpDeriveKey parent_key_id => is_u8 parent_key_id
  | OpWriteByte byte => is_u8 byte
  | _ => true
  end.

(** A check of [P] on every 16-bit value, high byte by low byte. *)
Definition all_u16 (P : Z -> bool) : bool :=
  forallb (fun hi => forallb (fun lo => P (256 * hi + lo)) (seqZ 0 256))
    (seqZ 0 256).

(** What [sendCommand] puts after the marker and before the CRC byte: the
    count, the opcode, the parameters and the payload. *)
Definition frame_body (command p1 p2 : Z) (payload : list Z) : list Z :=
  [7 + Z.of_nat (length payload); command; p1; Z.land p2 0xFF; Z.shiftr p2 8]
  ++ payload.

(** A world after [chip_init] whose command buffer holds [opcode] at index 2,
    for the concrete examples. *)
Definition sample_world (opcode : Z) : World :=
  with_device
    (set_commandPacket (<[2%nat := opcode]> (commandPacket fresh_device))
       fresh_device)
    (power_on 7).


(** A byte array of [n] elements. *)
Definition bytes_of_size (n : nat) (l : list Z) : Prop :=
  length l = n /\ Forall (fun b => 0 <= b < 256) l.

(** [well_formed] together with [cursors_in_bounds], as propositions. *)
Record DeviceInvariant (d : ATECC608) : Prop := {
  inv_config : bytes_of_size 128 (configZone d);
  inv_otp : bytes_of_size 64 (otpZone d);
  inv_data : bytes_of_size 1024 (dataZone d);
  inv_command : bytes_of_size 128 (commandPacket d);
  inv_response : bytes_of_size 128 (responsePacket d);
  inv_lastError : 0 <= lastError d < 256;
  inv_packetPos : 0 <= packetPos d <= 128;
  inv_responsePos : 0 <= responsePos d <= 128
}.

(** The world [w] with the command buffer and the command cursor replaced. *)
Definition framer_state (packet : list Z) (pos : Z) (w : World) : World :=
  with_device (set_packetPos pos (set_commandPacket packet (device w))) w.

(** [crc_round] and [crc_bit_step] with the conversions to [uint16_t] and
    [uint8_t] written as masks instead of remainders: the same functions
    ([crc_round_masked_eq], [crc_bit_step_masked_eq]), quicker to evaluate on
    all 65536 registers. *)
Definition crc_round_masked (crc byte : Z) : Z :=
  let crc_register :=
    Z.land (Z.lor (Z.land (Z.shiftr crc 8) 0xFF) (Z.shiftl crc 8)) 0xFFFF in
  let crc_register := Z.land (Z.lxor crc_register byte) 0xFFFF in
  let crc_register :=
    Z.land
      (Z.lxor crc_register
         (Z.shiftr (Z.land (Z.land crc_register 0xff) 0xFF) 4)) 0xFFFF in
  let crc_register :=
    Z.land (Z.lxor crc_register (Z.shiftl (Z.shiftl crc_register 8) 4))
      0xFFFF in
  let crc_register :=
    Z.land
      (Z.lxor crc_register
         (Z.shiftl (Z.shiftl (Z.land crc_register 0xff) 4) 1)) 0xFFFF in
  crc_register.

Definition crc_bit_step_masked (poly x : Z) : Z :=
  if Z.testbit x 15 then Z.land (Z.lxor (Z.shiftl x 1) poly) 0xFFFF
  else Z.land (Z.shiftl x 1) 0xFFFF.

(** * Properties *)

(** ** Machine integers *)

Lemma is_u8_range (z : Z) : is_u8 z = true <-> 0 <= z < 256.
Proof. unfold is_u8. rewrite andb_true_iff, Z.leb_le, Z.ltb_lt. tauto. Qed.

Lemma u8_small (z : Z) : 0 <= z < 256 -> u8 z = z.
Proof. intros Hz. unfold u8. apply Z.mod_small. exact Hz. Qed.

Lemma u8_land_ones (z : Z) : u8 z = Z.land z (Z.ones 8).
Proof. unfold u8. rewrite Z.land_ones by lia. reflexivity. Qed.

(** Truncation to a byte commutes with XOR, so the XOR of two bytes needs no
    truncation. *)
Lemma u8_lxor (a b : Z) : u8 (Z.lxor a b) = Z.lxor (u8 a) (u8 b).
Proof.
  rewrite !u8_land_ones. apply Z.bits_inj'. intros n Hn.
  rewrite Z.land_spec, !Z.lxor_spec, !Z.land_spec.
  destruct (Z.testbit (Z.ones 8) n).
  - rewrite !andb_true_r. reflexivity.
  - rewrite !andb_false_r. reflexivity.
Qed.

Lemma u8_lxor_bytes (a b : Z) :
  0 <= a < 256 -> 0 <= b < 256 -> u8 (Z.lxor a b) = Z.lxor a b.
Proof. intros Ha Hb. rewrite u8_lxor, !u8_small by assumption. reflexivity. Qed.

Lemma u16_small (z : Z) : 0 <= z < 65536 -> u16 z = z.
Proof. intros Hz. unfold u16. apply Z.mod_small. exact Hz. Qed.

(** ** Raw memory *)

Lemma byte_at_lookup (a : list Z) (i : Z) (x : Z) :
  a !! Z.to_nat i = Some x -> byte_at a i = x.
Proof. unfold byte_at. intros ->. reflexivity. Qed.

Lemma lookup_byte_at (a : list Z) (i : Z) :
  (Z.to_nat i < length a)%nat -> a !! Z.to_nat i = Some (byte_at a i).
Proof.
  intros Hi. destruct (lookup_lt_is_Some_2 a _ Hi) as [x Hx].
  rewrite Hx. f_equal. symmetry. apply byte_at_lookup. exact Hx.
Qed.

Lemma forallb_is_u8_lookup (a : list Z) (i : nat) (x : Z) :
  forallb is_u8 a = true -> a !! i = Some x -> 0 <= x < 256.
Proof.
  intros Ha Hx. apply is_u8_range.
  rewrite forallb_forall in Ha. apply Ha.
  apply list_elem_of_In. eapply list_elem_of_lookup_2. exact Hx.
Qed.

(** A copy in followed by a copy out of the same range gives back the bytes
    copied in, when the range lies inside the array. *)
Lemma memcpy_from_to (dest : list Z) (off : Z) (src : list Z) (n : Z) :
  length src = Z.to_nat n ->
  (Z.to_nat off + Z.to_nat n <= length dest)%nat ->
  memcpy_from (memcpy_to dest off src n) off n = src.
Proof.
  intros Hsrc Hfit. unfold memcpy_from, memcpy_to.
  rewrite (take_ge src) by lia.
  apply list_eq. intros i.
  destruct (decide (i < Z.to_nat n)%nat) as [Hi | Hi].
  - rewrite lookup_take_lt by exact Hi. rewrite lookup_drop.
    rewrite list_lookup_inserts by lia.
    f_equal. lia.
  - rewrite lookup_take_ge by lia.
    symmetry. apply lookup_ge_None. lia.
Qed.

(** ** Well-formed devices *)

Lemma well_formed_WellFormed (d : ATECC608) :
  well_formed d = true -> WellFormed d.
Proof.
  unfold well_formed. rewrite !andb_true_iff, !Nat.eqb_eq, !is_u8_range.
  intros H. decompose [and] H. constructor; first [assumption | lia].
Qed.

Lemma well_formed_init_device (d : ATECC608) :
  length (commandPacket d) = 128%nat ->
  length (responsePacket d) = 128%nat ->
  forallb is_u8 (commandPacket d) = true ->
  forallb is_u8 (responsePacket d) = true ->
  well_formed (init_device d) = true.
Proof.
  intros Hc Hr Hcb Hrb. unfold well_formed, init_device. cbn [configZone otpZone
    dataZone commandPacket responsePacket lastError packetPos responsePos].
  rewrite Hc, Hr, Hcb, Hrb. vm_compute. reflexivity.
Qed.

(** ** Zone memory *)

Lemma same_zones_set_lastError (e : Z) (d : ATECC608) :
  same_zones d (set_lastError e d).
Proof. repeat split. Qed.

(** The [switch] on [zone & 0x03] has exactly four outcomes. *)
Lemma zone_switch_cases (zone : Z) :
  (Z.land zone 3 = 0 /\ zone_switch zone = Some (PtrConfig, 128))
  \/ (Z.land zone 3 = 1 /\ zone_switch zone = Some (PtrOtp, 64))
  \/ (Z.land zone 3 = 2 /\ zone_switch zone = Some (PtrData, 1024))
  \/ (Z.land zone 3 = 3 /\ zone_switch zone = None).
Proof.
  unfold zone_switch.
  assert (Hr : 0 <= Z.land zone 3 < 4).
  { change 3 with (Z.ones 2). rewrite Z.land_ones by lia.
    apply Z.mod_pos_bound. reflexivity. }
  change 0x03 with 3.
  destruct (Z.land zone 3) as [| p | p]; [tauto | | lia].
  destruct p as [[p | p |] | [p | p |] |]; try lia; tauto.
Qed.

Lemma zone_load_length (d : ATECC608) (zone : Z) (p : ZonePtr) (size : Z) :
  WellFormed d -> zone_switch zone = Some (p, size) ->
  length (zone_load d p) = Z.to_nat size.
Proof.
  intros Hwf Hsw.
  destruct (zone_switch_cases zone) as [[_ H] | [[_ H] | [[_ H] | [_ H]]]];
    rewrite H in Hsw; inversion Hsw; subst; cbn [zone_load].
  - apply Hwf.
  - apply Hwf.
  - apply Hwf.
Qed.

Lemma zone_load_store (p : ZonePtr) (z : list Z) (d : ATECC608) :
  zone_load (zone_store p z d) p = z.
Proof. destruct p; reflexivity. Qed.

(** A failing [read] or [write] changes [lastError] only. *)
Lemma read_failure (d : ATECC608) (zone address len : Z) :
  fst (read d zone address len) = None ->
  exists e, snd (read d zone address len) = set_lastError e d.
Proof.
  unfold read. destruct (32 <? len); [eauto |].
  destruct (zone_switch zone) as [[source max_len] |]; [| eauto].
  destruct (max_len <? address + len); [eauto | discriminate].
Qed.

Lemma write_failure (d : ATECC608) (zone address : Z) (data : list Z) (len : Z) :
  fst (write d zone address data len) = false ->
  exists e, snd (write d zone address data len) = set_lastError e d.
Proof.
  unfold write. destruct (32 <? len); [eauto |].
  destruct (zone_switch zone) as [[dest max_len] |]; [| eauto].
  destruct (max_len <? address + len); [eauto | discriminate].
Qed.

Lemma well_formed_fresh_device : well_formed fresh_device = true.
Proof. vm_compute. reflexivity. Qed.

Lemma selects_zone_switch (zone size : Z) :
  selects zone size -> exists p, zone_switch zone = Some (p, size).
Proof.
  unfold selects, ZONE_CONFIG, ZONE_OTP, ZONE_DATA.
  destruct (zone_switch_cases zone) as [[E H] | [[E H] | [[E H] | [E H]]]];
    change 0x03 with 3; rewrite E, H;
    intros [[? ->] | [[? ->] | [? ->]]]; try discriminate; eauto.
Qed.

Lemma read_too_long (d : ATECC608) (zone address len : Z) :
  32 < len -> read d zone address len = (None, set_lastError 1 d).
Proof. intros Hlen. unfold read. apply Z.ltb_lt in Hlen. rewrite Hlen. reflexivity. Qed.

Lemma write_too_long (d : ATECC608) (zone address : Z) (data : list Z) (len : Z) :
  32 < len -> write d zone address data len = (false, set_lastError 1 d).
Proof. intros Hlen. unfold write. apply Z.ltb_lt in Hlen. rewrite Hlen. reflexivity. Qed.

(** C2, the claim as written fails: tag 4 is none of CONFIG(0), OTP(1),
    DATA(2), yet [zone & 0x03] makes it the config zone, so [write] succeeds
    and changes config byte 0 and [read] succeeds too; and with tag 3 a length
    of 33 is answered with error 1, not 2. *)
Lemma zone_tag_4_aliases_config :
  4 <> ZONE_CONFIG /\ 4 <> ZONE_OTP /\ 4 <> ZONE_DATA
  /\ fst (write fresh_device 4 0 [0xAA] 1) = true
  /\ configZone fresh_device !! 0%nat = Some 0x01
  /\ configZone (snd (write fresh_device 4 0 [0xAA] 1)) !! 0%nat = Some 0xAA
  /\ fst (read fresh_device 4 0 1) = Some [0x01]
  /\ lastError (snd (write fresh_device 3 0 (replicate 33 0) 33)) = 1.
Proof. repeat split; try discriminate; vm_compute; reflexivity. Qed.

(** C2 (amended): for every zone tag whose low two bits are both set
    ([zone & 0x03 = 3], the only tags the [switch] sends to its default
    branch), every address and data and every length of at most 32, [read] and
    [write] both fail, set [lastError] to 2 and leave the three zones as they
    were. *)
Theorem invalid_zone_rejected
    (d : ATECC608) (zone address len : Z) (data : list Z) :
  Z.land zone 0x03 = 3 -> len <= 32 ->
  read d zone address len = (None, set_lastError 2 d)
  /\ write d zone address data len = (false, set_lastError 2 d)
  /\ lastError (set_lastError 2 d) = 2
  /\ same_zones d (set_lastError 2 d).
Proof.
  intros Hz Hlen. change 0x03 with 3 in Hz.
  assert (Hsw : zone_switch zone = None).
  { destruct (zone_switch_cases zone) as [[E _] | [[E _] | [[E _] | [_ H]]]];
      [lia | lia | lia | exact H]. }
  assert (Hl : (32 <? len) = false) by (apply Z.ltb_ge; lia).
  unfold read, write. rewrite Hl, Hsw.
  repeat split.
Qed.

Lemma invalid_zone_rejected_witness :
  Z.land 7 0x03 = 3 /\ 4 <= 32
  /\ read fresh_device 7 0 4 = (None, set_lastError 2 fresh_device)
  /\ write fresh_device 7 0 [1; 2; 3; 4] 4 = (false, set_lastError 2 fresh_device)
  /\ lastError (set_lastError 2 fresh_device) = 2
  /\ same_zones fresh_device (set_lastError 2 fresh_device).
Proof.
  split; [reflexivity |]. split; [lia |].
  apply (invalid_zone_rejected fresh_device 7 0 4 [1; 2; 3; 4]);
    [reflexivity | lia].
Defined.

(** C4, the claim as written fails: on the config zone, address 100 and length
    33 run past the 128 bytes of the zone, yet both calls report error 1 and
    not 3, because the length test comes first. *)
Lemma length_check_precedes_range_check :
  CONFIG_SIZE < 100 + 33
  /\ lastError (snd (read fresh_device ZONE_CONFIG 100 33)) = 1
  /\ lastError (snd (write fresh_device ZONE_CONFIG 100 (replicate 33 0) 33)) = 1
  /\ (1 : Z) <> 3.
Proof. repeat split; try discriminate; vm_compute; reflexivity. Qed.

(** C4 (amended): a length above 32 makes [read] and [write] fail with
    [lastError] 1; a length of at most 32 whose range runs past the end of the
    zone selected by [zone & 0x03] (128 for config, 64 for OTP, 1024 for data)
    makes them fail with [lastError] 3; and whenever [read] or [write] fails
    the three zones are left as they were. *)
Theorem zone_bounds_rejected
    (d : ATECC608) (zone address len : Z) (data : list Z) :
  (32 < len ->
     read d zone address len = (None, set_lastError 1 d)
     /\ write d zone address data len = (false, set_lastError 1 d))
  /\ (forall size, len <= 32 -> selects zone size -> size < address + len ->
        read d zone address len = (None, set_lastError 3 d)
        /\ write d zone address data len = (false, set_lastError 3 d))
  /\ (fst (read d zone address len) = None ->
        same_zones d (snd (read d zone address len)))
  /\ (fst (write d zone address data len) = false ->
        same_zones d (snd (write d zone address data len))).
Proof.
  split; [| split; [| split]].
  - intros Hlen. split; [apply read_too_long | apply write_too_long]; exact Hlen.
  - intros size Hlen Hsel Hover.
    destruct (selects_zone_switch zone size Hsel) as [p Hsw].
    assert (Hl : (32 <? len) = false) by (apply Z.ltb_ge; lia).
    apply Z.ltb_lt in Hover.
    unfold read, write. rewrite Hl, Hsw, Hover. split; reflexivity.
  - intros Hfail. destruct (read_failure d zone address len Hfail) as [e ->].
    apply same_zones_set_lastError.
  - intros Hfail.
    destruct (write_failure d zone address data len Hfail) as [e ->].
    apply same_zones_set_lastError.
Qed.

Lemma zone_bounds_rejected_witness :
  (32 < 33
   /\ read fresh_device ZONE_DATA 0 33 = (None, set_lastError 1 fresh_device)
   /\ write fresh_device ZONE_DATA 0 (replicate 33 7) 33
      = (false, set_lastError 1 fresh_device))
  /\ (8 <= 32 /\ selects ZONE_OTP OTP_SIZE /\ OTP_SIZE < 60 + 8
      /\ read fresh_device ZONE_OTP 60 8 = (None, set_lastError 3 fresh_device)
      /\ write fresh_device ZONE_OTP 60 (replicate 8 7) 8
         = (false, set_lastError 3 fresh_device))
  /\ same_zones fresh_device (snd (read fresh_device ZONE_OTP 60 8))
  /\ same_zones fresh_device
       (snd (write fresh_device ZONE_OTP 60 (replicate 8 7) 8)).
Proof.
  destruct (zone_bounds_rejected fresh_device ZONE_DATA 0 33 (replicate 33 7))
    as [Hlong _].
  destruct (zone_bounds_rejected fresh_device ZONE_OTP 60 8 (replicate 8 7))
    as (_ & Hrange & Hread & Hwrite).
  assert (Hsel : selects ZONE_OTP OTP_SIZE) by (right; left; split; reflexivity).
  split; [split; [lia | apply Hlong; lia] |].
  split; [split; [lia | split; [exact Hsel | split; [reflexivity |
    apply (Hrange OTP_SIZE); [lia | exact Hsel | reflexivity]]]] |].
  split; [apply Hread | apply Hwrite]; reflexivity.
Defined.

(** C5: on a device whose zones have their fixed sizes, for each of the zones
    CONFIG, OTP and DATA, every length of at most 32 and every address whose
    range stays inside the zone, [write] of [len] bytes succeeds and a [read]
    of the same range afterwards succeeds, changes nothing and returns exactly
    the bytes written. *)
Theorem write_read_roundtrip
    (d : ATECC608) (zone address len size : Z) (data : list Z) :
  well_formed d = true ->
  (zone = ZONE_CONFIG /\ size = CONFIG_SIZE)
  \/ (zone = ZONE_OTP /\ size = OTP_SIZE)
  \/ (zone = ZONE_DATA /\ size = DATA_SIZE) ->
  0 <= address -> 0 <= len <= 32 -> address + len <= size ->
  length data = Z.to_nat len ->
  fst (write d zone address data len) = true
  /\ read (snd (write d zone address data len)) zone address len
     = (Some data, snd (write d zone address data len)).
Proof.
  intros Hwf Hzone Haddr Hlen Hfit Hdata.
  apply well_formed_WellFormed in Hwf.
  assert (Hsel : selects zone size).
  { destruct Hzone as [[-> ->] | [[-> ->] | [-> ->]]];
      [left | right; left | right; right]; split; reflexivity. }
  destruct (selects_zone_switch zone size Hsel) as [p Hsw].
  assert (Hl : (32 <? len) = false) by (apply Z.ltb_ge; lia).
  assert (Hr : (size <? address + len) = false) by (apply Z.ltb_ge; lia).
  pose proof (zone_load_length d zone p size Hwf Hsw) as Hsize.
  unfold write. rewrite Hl, Hsw, Hr. cbn [fst snd]. split; [reflexivity |].
  unfold read. rewrite Hl, Hsw, Hr. rewrite zone_load_store.
  rewrite memcpy_from_to; [reflexivity | exact Hdata | lia].
Qed.

Lemma write_read_roundtrip_witness :
  well_formed fresh_device = true
  /\ 0 <= 1000 /\ 0 <= 24 <= 32 /\ 1000 + 24 <= DATA_SIZE
  /\ length (seqZ 1 24) = Z.to_nat 24
  /\ fst (write fresh_device ZONE_DATA 1000 (seqZ 1 24) 24) = true
  /\ read (snd (write fresh_device ZONE_DATA 1000 (seqZ 1 24) 24))
       ZONE_DATA 1000 24
     = (Some (seqZ 1 24), snd (write fresh_device ZONE_DATA 1000 (seqZ 1 24) 24)).
Proof.
  split; [vm_compute; reflexivity |].
  split; [lia |]. split; [lia |]. split; [vm_compute; discriminate |].
  split; [reflexivity |].
  apply (write_read_roundtrip fresh_device ZONE_DATA 1000 24 DATA_SIZE (seqZ 1 24)).
  - vm_compute; reflexivity.
  - right; right; split; reflexivity.
  - lia.
  - lia.
  - vm_compute; discriminate.
  - reflexivity.
Defined.

(** ** Key store *)

(** A successful 32-byte [read] of the data zone: the state is untouched and
    the bytes are those of the addressed range. *)
Lemma read_data_Some (d : ATECC608) (address : Z) (key : list Z) :
  fst (read d ZONE_DATA address 32) = Some key ->
  read d ZONE_DATA address 32 = (Some key, d)
  /\ key = memcpy_from (dataZone d) address 32.
Proof.
  unfold read. change (32 <? 32) with false. cbv iota.
  change (zone_switch ZONE_DATA) with (Some (PtrData, DATA_SIZE)). cbv iota beta.
  destruct (DATA_SIZE <? address + 32); cbn [fst zone_load].
  - discriminate.
  - intros [= <-]. split; reflexivity.
Qed.

Lemma byte_at_range (a : list Z) (i : Z) :
  forallb is_u8 a = true -> 0 <= byte_at a i < 256.
Proof.
  intros Ha. unfold byte_at.
  destruct (a !! Z.to_nat i) as [x |] eqn:Hx; cbn [default].
  - eapply forallb_is_u8_lookup; eassumption.
  - lia.
Qed.

Lemma memcpy_from_bytes (src : list Z) (off n : Z) :
  forallb is_u8 src = true -> forallb is_u8 (memcpy_from src off n) = true.
Proof.
  intros Hsrc. apply forallb_forall. intros x Hx.
  apply list_elem_of_In, list_elem_of_lookup in Hx. destruct Hx as [i Hi].
  unfold memcpy_from in Hi. apply lookup_take_Some in Hi. destruct Hi as [Hi _].
  rewrite lookup_drop in Hi.
  apply is_u8_range. eapply forallb_is_u8_lookup; eassumption.
Qed.

(** The body of a [for (i = 0; i < 32; i++) out[i] = f i] loop, read back. *)
Lemma lookup_loop32 (f : Z -> Z) (i : Z) :
  0 <= i < 32 -> (f <$> seqZ 0 32) !! Z.to_nat i = Some (f i).
Proof.
  intros Hi. rewrite list_lookup_fmap, lookup_seqZ_lt by lia.
  cbn [fmap option_fmap option_map]. f_equal. f_equal. lia.
Qed.

Lemma length_loop32 (f : Z -> Z) : length (f <$> seqZ 0 32) = 32%nat.
Proof. rewrite length_fmap, length_seqZ. reflexivity. Qed.

(** A 32-byte array is what its 32 indexed reads say. *)
Lemma loop32_byte_at (a : list Z) :
  length a = 32%nat -> (byte_at a <$> seqZ 0 32) = a.
Proof.
  intros Ha. apply list_eq. intros n.
  destruct (decide (n < 32)%nat) as [Hn | Hn].
  - replace n with (Z.to_nat (Z.of_nat n)) by lia.
    rewrite lookup_loop32 by lia. symmetry. apply lookup_byte_at. lia.
  - rewrite (lookup_ge_None_2 a) by lia.
    apply lookup_ge_None_2. rewrite length_loop32. lia.
Qed.

(** C7: when the 32-byte [read] of the parent slot succeeds with [parent],
    [deriveKey] succeeds without changing the device, its 32-byte result has
    byte [i] equal to [parent[i] XOR (i+1)] for every [i] in [0,32), and a
    second call right after returns the same result. *)
Theorem deriveKey_xor_index
    (d : ATECC608) (parent_key_id : Z) (parent : list Z) :
  well_formed d = true ->
  fst (read d ZONE_DATA (u16 (32 * parent_key_id)) 32) = Some parent ->
  exists child,
    deriveKey d parent_key_id = (Some child, d)
    /\ parent = memcpy_from (dataZone d) (u16 (32 * parent_key_id)) 32
    /\ length child = 32%nat
    /\ (forall i, 0 <= i < 32 ->
          child !! Z.to_nat i = Some (Z.lxor (byte_at parent i) (i + 1)))
    /\ deriveKey (snd (deriveKey d parent_key_id)) parent_key_id
       = deriveKey d parent_key_id.
Proof.
  intros Hwf Hread. apply well_formed_WellFormed in Hwf.
  destruct (read_data_Some d _ parent Hread) as [Heq Hparent].
  assert (Hcall : deriveKey d parent_key_id
                  = (Some ((fun i => u8 (Z.lxor (byte_at parent i) (i + 1)))
                             <$> seqZ 0 32), d)).
  { unfold deriveKey. rewrite Heq. reflexivity. }
  rewrite Hcall. cbn [snd].
  eexists. split; [reflexivity |]. split; [exact Hparent |].
  split; [apply length_loop32 |]. split.
  - intros i Hi. rewrite lookup_loop32 by exact Hi.
    f_equal. apply u8_lxor_bytes; [| lia].
    rewrite Hparent. apply byte_at_range, memcpy_from_bytes, Hwf.
  - exact Hcall.
Qed.

Lemma deriveKey_xor_index_witness :
  well_formed fresh_device = true
  /\ fst (read fresh_device ZONE_DATA (u16 (32 * 5)) 32) = Some (replicate 32 0)
  /\ exists child,
       deriveKey fresh_device 5 = (Some child, fresh_device)
       /\ replicate 32 0 = memcpy_from (dataZone fresh_device) (u16 (32 * 5)) 32
       /\ length child = 32%nat
       /\ (forall i, 0 <= i < 32 ->
             child !! Z.to_nat i
             = Some (Z.lxor (byte_at (replicate 32 0) i) (i + 1)))
       /\ deriveKey (snd (deriveKey fresh_device 5)) 5 = deriveKey fresh_device 5.
Proof.
  split; [vm_compute; reflexivity |]. split; [vm_compute; reflexivity |].
  apply (deriveKey_xor_index fresh_device 5 (replicate 32 0));
    vm_compute; reflexivity.
Defined.

(** C8: when the 32-byte [read] of the slot succeeds with [key] and [message]
    is 32 bytes, [computeHMAC] succeeds without changing the device, byte [i]
    of its result is [key[i] XOR message[i]], and [computeHMAC] of that result
    on the same slot gives [message] back. *)
Theorem computeHMAC_xor_involutive
    (d : ATECC608) (key_id : Z) (message key : list Z) :
  well_formed d = true ->
  fst (read d ZONE_DATA (u16 (32 * key_id)) 32) = Some key ->
  length message = 32%nat ->
  forallb is_u8 message = true ->
  exists hmac,
    computeHMAC d key_id message = (Some hmac, d)
    /\ key = memcpy_from (dataZone d) (u16 (32 * key_id)) 32
    /\ length hmac = 32%nat
    /\ (forall i, 0 <= i < 32 ->
          hmac !! Z.to_nat i = Some (Z.lxor (byte_at key i) (byte_at message i)))
    /\ computeHMAC d key_id hmac = (Some message, d).
Proof.
  intros Hwf Hread Hlen Hbytes. apply well_formed_WellFormed in Hwf.
  destruct (read_data_Some d _ key Hread) as [Heq Hkey].
  assert (Hk : forall i, 0 <= byte_at key i < 256).
  { intros i. rewrite Hkey. apply byte_at_range, memcpy_from_bytes, Hwf. }
  assert (Hm : forall i, 0 <= byte_at message i < 256).
  { intros i. apply byte_at_range, Hbytes. }
  unfold computeHMAC. rewrite Heq.
  eexists. split; [reflexivity |]. split; [exact Hkey |].
  split; [apply length_loop32 |]. split.
  - intros i Hi. rewrite lookup_loop32 by exact Hi.
    f_equal. apply u8_lxor_bytes; [apply Hk | apply Hm].
  - f_equal. f_equal.
    etrans; [| apply (loop32_byte_at message Hlen)].
    apply list_eq. intros n.
    destruct (decide (n < 32)%nat) as [Hn | Hn].
    + replace n with (Z.to_nat (Z.of_nat n)) by lia.
      rewrite !lookup_loop32 by lia. f_equal.
      rewrite (byte_at_lookup _ _ _ (lookup_loop32 _ (Z.of_nat n) ltac:(lia))).
      rewrite (u8_lxor_bytes (byte_at key _) (byte_at message _))
        by (apply Hk || apply Hm).
      rewrite <- Z.lxor_assoc, Z.lxor_nilpotent, Z.lxor_0_l.
      apply u8_small, Hm.
    + rewrite !lookup_ge_None_2 by (rewrite length_loop32; lia). reflexivity.
Qed.

Lemma computeHMAC_xor_involutive_witness :
  well_formed fresh_device = true
  /\ fst (read fresh_device ZONE_DATA (u16 (32 * 3)) 32) = Some (replicate 32 0)
  /\ length (seqZ 100 32) = 32%nat
  /\ forallb is_u8 (seqZ 100 32) = true
  /\ exists hmac,
       computeHMAC fresh_device 3 (seqZ 100 32) = (Some hmac, fresh_device)
       /\ replicate 32 0 = memcpy_from (dataZone fresh_device) (u16 (32 * 3)) 32
       /\ length hmac = 32%nat
       /\ (forall i, 0 <= i < 32 ->
             hmac !! Z.to_nat i
             = Some (Z.lxor (byte_at (replicate 32 0) i)
                       (byte_at (seqZ 100 32) i)))
       /\ computeHMAC fresh_device 3 hmac = (Some (seqZ 100 32), fresh_device).
Proof.
  split; [vm_compute; reflexivity |]. split; [vm_compute; reflexivity |].
  split; [reflexivity |]. split; [vm_compute; reflexivity |].
  apply (computeHMAC_xor_involutive fresh_device 3 (seqZ 100 32) (replicate 32 0));
    vm_compute; reflexivity.
Defined.

(** [storeKey] checks the slot index before it touches the data zone. *)
Lemma storeKey_rejects_slot_ge_16
    (d : ATECC608) (key_id : Z) (key : list Z) (key_type : Z) :
  16 <= key_id -> storeKey d key_id key key_type = (false, set_lastError 8 d).
Proof.
  intros Hid. unfold storeKey. apply Z.leb_le in Hid. rewrite Hid. reflexivity.
Qed.

(** [computeHMAC] and [deriveKey] have no such check: the 1024-byte data zone
    holds 32 ranges of 32 bytes, and indices 16 to 31 are read like any
    other. *)
Lemma read_slot_16_to_31 (d : ATECC608) (key_id : Z) :
  16 <= key_id < 32 ->
  read d ZONE_DATA (u16 (32 * key_id)) 32
  = (Some (memcpy_from (dataZone d) (32 * key_id) 32), d).
Proof.
  intros Hid. rewrite u16_small by lia. unfold read.
  change (32 <? 32) with false. cbv iota.
  change (zone_switch ZONE_DATA) with (Some (PtrData, DATA_SIZE)). cbv iota beta.
  assert (Hr : (DATA_SIZE <? 32 * key_id + 32) = false).
  { apply Z.ltb_ge. unfold DATA_SIZE. lia. }
  rewrite Hr. reflexivity.
Qed.

Lemma computeHMAC_accepts_slot_16_to_31
    (d : ATECC608) (key_id : Z) (message : list Z) :
  16 <= key_id < 32 ->
  exists hmac, computeHMAC d key_id message = (Some hmac, d).
Proof.
  intros Hid. unfold computeHMAC. rewrite read_slot_16_to_31 by exact Hid. eauto.
Qed.

Lemma deriveKey_accepts_slot_16_to_31 (d : ATECC608) (parent_key_id : Z) :
  16 <= parent_key_id < 32 ->
  exists child, deriveKey d parent_key_id = (Some child, d).
Proof.
  intros Hid. unfold deriveKey. rewrite read_slot_16_to_31 by exact Hid. eauto.
Qed.

(** C6, the code at slot index 16: [storeKey] rejects it with error 8, but
    [computeHMAC] and [deriveKey] accept it, return bytes 512..543 of the data
    zone combined as for any slot, and leave [lastError] at 0. *)
Theorem slot_16_store_rejected_hmac_derive_accepted :
  storeKey fresh_device 16 (replicate 32 0x11) 0x04
  = (false, set_lastError 8 fresh_device)
  /\ computeHMAC fresh_device 16 (replicate 32 0x5A)
     = (Some (replicate 32 0x5A), fresh_device)
  /\ deriveKey fresh_device 16 = (Some (seqZ 1 32), fresh_device)
  /\ lastError fresh_device = 0.
Proof. repeat split; vm_compute; reflexivity. Qed.

(** ** Initialisation *)

(** C9, the claim as written fails: after [atecc608_init] and after
    [atecc608_reset], config bytes 0 and 1 hold 0x01 and 0x23, so the config
    zone is not all 0xFF. *)
Lemma init_config_not_all_FF :
  configZone (device (atecc608_init 0 static_world)) !! 0%nat = Some 0x01
  /\ configZone (device (atecc608_reset 0 static_world)) !! 1%nat = Some 0x23
  /\ ~ Forall (fun b => b = 0xFF)
         (configZone (device (atecc608_init 0 static_world))).
Proof.
  split; [reflexivity |]. split; [reflexivity |].
  intros Hall. rewrite Forall_lookup in Hall.
  specialize (Hall 0%nat 0x01 eq_refl). discriminate Hall.
Qed.

(** C9 (amended): after [atecc608_init], and after [atecc608_reset] which is
    the same function, config byte 0 is 0x01, config byte 1 is 0x23 and the
    other 126 config bytes are 0xFF; the 64 OTP bytes and the 1024 data bytes
    are 0; [lastError] is 0, the state is IDLE and both cursors are 0. *)
Theorem init_defaults (now : Z) (w : World) :
  let d := device (atecc608_init now w) in
  configZone d = 0x01 :: 0x23 :: replicate 126 0xFF
  /\ length (configZone d) = 128%nat
  /\ otpZone d = replicate 64 0
  /\ dataZone d = replicate 1024 0
  /\ lastError d = 0
  /\ state d = IDLE
  /\ packetPos d = 0
  /\ responsePos d = 0
  /\ atecc608_reset now w = atecc608_init now w.
Proof. cbv zeta. repeat split. Qed.

(** ** Response bytes *)

(** C10: with the response cursor below 128, [atecc608_read_byte] returns the
    byte of [responsePacket] at the cursor and moves the cursor one up; with
    the cursor at 128 or more, every call, however many came before, returns 0
    and leaves the device, cursor included, as it was. *)
Theorem read_byte_drains_to_zero (d : ATECC608) :
  (0 <= responsePos d < MAX_PACKET_SIZE ->
     atecc608_read_byte d
     = (byte_at (responsePacket d) (responsePos d),
        set_responsePos (responsePos d + 1) d))
  /\ (MAX_PACKET_SIZE <= responsePos d ->
      forall n : nat,
        Nat.iter n (fun x => snd (atecc608_read_byte x)) d = d
        /\ atecc608_read_byte
             (Nat.iter n (fun x => snd (atecc608_read_byte x)) d) = (0, d)).
Proof.
  unfold MAX_PACKET_SIZE. split.
  - intros Hpos. unfold atecc608_read_byte, MAX_PACKET_SIZE.
    assert (Hlt : (responsePos d <? 128) = true) by (apply Z.ltb_lt; lia).
    rewrite Hlt, u8_small by lia. reflexivity.
  - intros Hpos.
    assert (Hone : atecc608_read_byte d = (0, d)).
    { unfold atecc608_read_byte, MAX_PACKET_SIZE.
      assert (Hge : (responsePos d <? 128) = false) by (apply Z.ltb_ge; lia).
      rewrite Hge. reflexivity. }
    assert (Hiter : forall n : nat,
               Nat.iter n (fun x => snd (atecc608_read_byte x)) d = d).
    { induction n as [| n IH]; [reflexivity |].
      rewrite Nat.iter_succ, IH, Hone. reflexivity. }
    intros n. rewrite Hiter. split; [reflexivity | exact Hone].
Qed.

Lemma read_byte_drains_to_zero_witness :
  (0 <= responsePos (set_responsePos 127 fresh_device) < MAX_PACKET_SIZE
   /\ atecc608_read_byte (set_responsePos 127 fresh_device)
      = (0, set_responsePos 128 fresh_device))
  /\ (MAX_PACKET_SIZE <= responsePos (set_responsePos 128 fresh_device)
      /\ atecc608_read_byte
           (Nat.iter 3 (fun x => snd (atecc608_read_byte x))
              (set_responsePos 128 fresh_device))
         = (0, set_responsePos 128 fresh_device)).
Proof.
  split.
  - split; [vm_compute; split; [discriminate | reflexivity] |].
    destruct (read_byte_drains_to_zero (set_responsePos 127 fresh_device))
      as [Hbelow _].
    rewrite Hbelow; [reflexivity | vm_compute; split; [discriminate | reflexivity]].
  - split; [vm_compute; discriminate |].
    destruct (read_byte_drains_to_zero (set_responsePos 128 fresh_device))
      as [_ Hfull].
    apply (Hfull ltac:(vm_compute; discriminate) 3%nat).
Defined.

(** ** Lock bytes *)

(** C3, the claim as written fails: [write] never looks at the lock bytes, so
    after [lockConfigZone] a one-byte [write] to config offset 87 succeeds and
    [isConfigLocked] is false again; the same at offset 86 after
    [lockDataAndOTPZones]. *)
Lemma config_write_clears_lock :
  isConfigLocked (snd (lockConfigZone fresh_device)) = true
  /\ fst (write (snd (lockConfigZone fresh_device)) ZONE_CONFIG 87 [0x55] 1) = true
  /\ isConfigLocked
       (snd (write (snd (lockConfigZone fresh_device)) ZONE_CONFIG 87 [0x55] 1))
     = false
  /\ isDataAndOTPLocked (snd (lockDataAndOTPZones fresh_device)) = true
  /\ isDataAndOTPLocked
       (snd (write (snd (lockDataAndOTPZones fresh_device)) ZONE_CONFIG 86 [0x55] 1))
     = false.
Proof. repeat split; vm_compute; reflexivity. Qed.

(** [atecc608_reset] refills the config zone, lock bytes included. *)
Lemma reset_clears_lock (now : Z) (w : World) :
  isConfigLocked (device (atecc608_reset now w)) = false
  /\ isDataAndOTPLocked (device (atecc608_reset now w)) = false.
Proof. split; reflexivity. Qed.

Lemma write_configZone_other_zone
    (d : ATECC608) (zone address : Z) (data : list Z) (len : Z) :
  Z.land zone 3 <> 0 ->
  configZone (snd (write d zone address data len)) = configZone d.
Proof.
  intros Hz. unfold write. destruct (32 <? len); [reflexivity |].
  destruct (zone_switch_cases zone) as [[E H] | [[E H] | [[E H] | [E H]]]];
    rewrite H; [lia | | | reflexivity];
    match goal with |- context [if ?c then _ else _] => destruct c end;
    reflexivity.
Qed.

Lemma read_configZone (d : ATECC608) (zone address len : Z) :
  configZone (snd (read d zone address len)) = configZone d.
Proof.
  unfold read. destruct (32 <? len); [reflexivity |].
  destruct (zone_switch zone) as [[source max_len] |]; [| reflexivity].
  destruct (max_len <? address + len); reflexivity.
Qed.

Lemma storeKey_configZone
    (d : ATECC608) (key_id : Z) (key : list Z) (key_type : Z) :
  configZone (snd (storeKey d key_id key key_type)) = configZone d.
Proof.
  unfold storeKey. destruct (16 <=? key_id); [reflexivity |].
  apply write_configZone_other_zone. vm_compute. discriminate.
Qed.

Lemma computeHMAC_configZone (d : ATECC608) (key_id : Z) (message : list Z) :
  configZone (snd (computeHMAC d key_id message)) = configZone d.
Proof.
  unfold computeHMAC.
  pose proof (read_configZone d ZONE_DATA (u16 (32 * key_id)) 32) as Hr.
  destruct (read d ZONE_DATA (u16 (32 * key_id)) 32) as [[key |] d']; exact Hr.
Qed.

Lemma deriveKey_configZone (d : ATECC608) (parent_key_id : Z) :
  configZone (snd (deriveKey d parent_key_id)) = configZone d.
Proof.
  unfold deriveKey.
  pose proof (read_configZone d ZONE_DATA (u16 (32 * parent_key_id)) 32) as Hr.
  destruct (read d ZONE_DATA (u16 (32 * parent_key_id)) 32) as [[key |] d'];
    exact Hr.
Qed.

Lemma read_byte_configZone (d : ATECC608) :
  configZone (snd (atecc608_read_byte d)) = configZone d.
Proof.
  unfold atecc608_read_byte. destruct (responsePos d <? MAX_PACKET_SIZE);
    reflexivity.
Qed.

(** A [write] that does not put a non-zero byte on config byte [k] leaves a
    zero there. *)
Lemma write_keeps_zero_byte
    (d : ATECC608) (zone address : Z) (data : list Z) (len k : Z) :
  32 <= k ->
  unlocks k (OpWrite zone address data len) = false ->
  configZone d !! Z.to_nat k = Some 0 ->
  configZone (snd (write d zone address data len)) !! Z.to_nat k = Some 0.
Proof.
  intros Hk Hspare Hzero.
  destruct (decide (Z.land zone 3 = 0)) as [Hz | Hz];
    [| rewrite write_configZone_other_zone by exact Hz; exact Hzero].
  unfold write. destruct (32 <? len) eqn:Hlen; [exact Hzero |].
  apply Z.ltb_ge in Hlen.
  destruct (zone_switch_cases zone) as [[E H] | [[E H] | [[E H] | [E H]]]];
    rewrite H; [| lia | lia | lia].
  destruct (128 <? address + len); [exact Hzero |].
  cbn [snd zone_store zone_load set_configZone configZone]. unfold memcpy_to.
  set (src := take (Z.to_nat len) data).
  assert (Hsrc : (length src <= Z.to_nat len)%nat).
  { unfold src. rewrite length_take. lia. }
  destruct (decide (Z.to_nat k < Z.to_nat address)%nat) as [Hlt | Hge];
    [rewrite list_lookup_inserts_lt by exact Hlt; exact Hzero |].
  destruct (decide (Z.to_nat address + length src <= Z.to_nat k)%nat)
    as [Hpast | Hin];
    [rewrite list_lookup_inserts_ge by exact Hpast; exact Hzero |].
  pose proof (lookup_lt_Some _ _ _ Hzero) as Hbound.
  rewrite list_lookup_inserts by lia.
  assert (Haddr : 0 <= address) by lia.
  unfold unlocks in Hspare. change 0x03 with 3 in Hspare.
  rewrite Hz in Hspare. change (0 =? ZONE_CONFIG) with true in Hspare.
  assert (H1 : (address <=? k) = true) by (apply Z.leb_le; lia).
  assert (H2 : (k <? address + len) = true) by (apply Z.ltb_lt; lia).
  rewrite H1, H2 in Hspare. cbn [andb] in Hspare.
  apply negb_false_iff, Z.eqb_eq in Hspare.
  replace (Z.to_nat k - Z.to_nat address)%nat with (Z.to_nat (k - address))
    by lia.
  unfold src. rewrite lookup_take_lt by lia.
  rewrite lookup_byte_at, Hspare; [reflexivity |].
  unfold src in Hin. rewrite length_take in Hin. lia.
Qed.

Section FramerProperties.

Variable libc_rand : Z -> nat -> Z.

Lemma generateRandomNumber_loop_frame (n : nat) (w : World) :
  device (snd (generateRandomNumber_loop libc_rand n w)) = device w
  /\ dispatches (snd (generateRandomNumber_loop libc_rand n w)) = dispatches w.
Proof.
  revert w. induction n as [| n IH]; intros w; [split; reflexivity |].
  cbn [generateRandomNumber_loop]. unfold rand.
  match goal with
  | |- context [generateRandomNumber_loop libc_rand n ?w1] =>
      specialize (IH w1);
      destruct (generateRandomNumber_loop libc_rand n w1) as [rest w2]
  end.
  exact IH.
Qed.

Lemma processCommand_configZone (w : World) :
  configZone (device (processCommand libc_rand w)) = configZone (device w).
Proof.
  unfold processCommand. cbv zeta. cbn [device].
  repeat match goal with
         | |- context [if ?c then _ else _] => destruct c
         end; reflexivity.
Qed.

Lemma write_byte_configZone (byte : Z) (w : World) :
  configZone (device (atecc608_write_byte libc_rand byte w))
  = configZone (device w).
Proof.
  unfold atecc608_write_byte. cbv zeta.
  repeat match goal with
         | |- context [if ?c then _ else _] => destruct c
         end;
    cbn [device with_device set_packetPos configZone];
    rewrite ?processCommand_configZone; reflexivity.
Qed.

Lemma generatePrivateKey_configZone (key_id key_type : Z) (w : World) :
  configZone (device (snd (generatePrivateKey libc_rand key_id key_type w)))
  = configZone (device w).
Proof.
  unfold generatePrivateKey, generateRandomNumber.
  pose proof (generateRandomNumber_loop_frame (Z.to_nat 32) w) as [Hd _].
  destruct (generateRandomNumber_loop libc_rand (Z.to_nat 32) w)
    as [private_key w1].
  cbn [snd] in Hd. unfold on_device.
  pose proof (storeKey_configZone (device w1) key_id private_key key_type) as Hs.
  destruct (storeKey (device w1) key_id private_key key_type) as [ok d'].
  cbn [snd device with_device] in *. rewrite Hs, Hd. reflexivity.
Qed.

(** One operation that does not unlock byte [k] keeps a zero at byte [k]. *)
Lemma exec_keeps_zero_byte (k : Z) (o : Op) (w : World) :
  32 <= k ->
  unlocks k o = false ->
  configZone (device w) !! Z.to_nat k = Some 0 ->
  configZone (device (exec libc_rand o w)) !! Z.to_nat k = Some 0.
Proof.
  intros Hk Hspare Hzero.
  destruct o; cbn [exec device with_device].
  - rewrite read_configZone. exact Hzero.
  - apply write_keeps_zero_byte; assumption.
  - cbn [lockConfigZone snd set_configZone configZone].
    apply list_lookup_insert_Some.
    destruct (decide (87%nat = Z.to_nat k)) as [-> | Hne].
    + left. split; [reflexivity |]. split; [reflexivity |].
      eapply lookup_lt_Some. exact Hzero.
    + right. split; assumption.
  - cbn [lockDataAndOTPZones snd set_configZone configZone].
    apply list_lookup_insert_Some.
    destruct (decide (86%nat = Z.to_nat k)) as [-> | Hne].
    + left. split; [reflexivity |]. split; [reflexivity |].
      eapply lookup_lt_Some. exact Hzero.
    + right. split; assumption.
  - exact Hzero.
  - exact Hzero.
  - rewrite storeKey_configZone. exact Hzero.
  - rewrite generatePrivateKey_configZone. exact Hzero.
  - rewrite computeHMAC_configZone. exact Hzero.
  - rewrite deriveKey_configZone. exact Hzero.
  - rewrite processCommand_configZone. exact Hzero.
  - rewrite write_byte_configZone. exact Hzero.
  - rewrite read_byte_configZone. exact Hzero.
Qed.

Lemma run_keeps_zero_byte (k : Z) (ops : list Op) (w : World) :
  32 <= k ->
  Forall (fun o => unlocks k o = false) ops ->
  configZone (device w) !! Z.to_nat k = Some 0 ->
  configZone (device (run libc_rand ops w)) !! Z.to_nat k = Some 0.
Proof.
  intros Hk Hops. revert w.
  induction Hops as [| o ops Ho _ IH]; intros w Hzero; [exact Hzero |].
  cbn [run foldl]. apply IH. apply exec_keeps_zero_byte; assumption.
Qed.

(** C3 (amended): on a device whose config zone has its 128 bytes, after
    [lockConfigZone] every sequence of the model's operations that contains no
    [write] storing a non-zero byte at config offset 87 leaves
    [isConfigLocked] true; and after [lockDataAndOTPZones] every sequence that
    contains no [write] storing a non-zero byte at config offset 86 leaves
    [isDataAndOTPLocked] true. *)
Theorem lock_bytes_stay_locked (ops : list Op) (w : World) :
  length (configZone (device w)) = 128%nat ->
  (Forall (fun o => unlocks 87 o = false) ops ->
     isConfigLocked (device (run libc_rand ops (exec libc_rand OpLockConfig w)))
     = true)
  /\ (Forall (fun o => unlocks 86 o = false) ops ->
        isDataAndOTPLocked
          (device (run libc_rand ops (exec libc_rand OpLockDataAndOTP w)))
        = true).
Proof.
  intros Hlen. split; intros Hops.
  - unfold isConfigLocked. apply bool_decide_eq_true.
    apply (run_keeps_zero_byte 87 ops); [lia | exact Hops |].
    cbn. apply list_lookup_insert_eq. lia.
  - unfold isDataAndOTPLocked. apply bool_decide_eq_true.
    apply (run_keeps_zero_byte 86 ops); [lia | exact Hops |].
    cbn. apply list_lookup_insert_eq. lia.
Qed.

End FramerProperties.

Lemma lock_bytes_stay_locked_witness :
  length (configZone (device (power_on 7))) = 128%nat
  /\ Forall (fun o => unlocks 87 o = false) sample_ops
  /\ Forall (fun o => unlocks 86 o = false) sample_ops
  /\ isConfigLocked
       (device (run sample_rand sample_ops
                  (exec sample_rand OpLockConfig (power_on 7)))) = true
  /\ isDataAndOTPLocked
       (device (run sample_rand sample_ops
                  (exec sample_rand OpLockDataAndOTP (power_on 7)))) = true.
Proof.
  assert (H87 : Forall (fun o => unlocks 87 o = false) sample_ops)
    by (repeat constructor).
  assert (H86 : Forall (fun o => unlocks 86 o = false) sample_ops)
    by (repeat constructor).
  destruct (lock_bytes_stay_locked sample_rand sample_ops (power_on 7) eq_refl)
    as [Hconfig Hdata].
  split; [reflexivity |]. split; [exact H87 |]. split; [exact H86 |].
  split; [exact (Hconfig H87) | exact (Hdata H86)].
Defined.

(** ** Command framing *)

Lemma byte_at_insert_0 (a : list Z) (b : Z) :
  byte_at (<[0%nat := b]> a) 0 = b \/ byte_at (<[0%nat := b]> a) 0 = 0.
Proof. destruct a as [| x a]; [right | left]; reflexivity. Qed.

Lemma byte_at_insert_later (a : list Z) (i : Z) (b : Z) :
  0 < i -> byte_at (<[Z.to_nat i := b]> a) 0 = byte_at a 0.
Proof.
  intros Hi. unfold byte_at. rewrite list_lookup_insert_ne by lia. reflexivity.
Qed.

Lemma with_device_same (w : World) : with_device (device w) w = w.
Proof. destruct w; reflexivity. Qed.

Section Framing.

Variable libc_rand : Z -> nat -> Z.

(** From such a state a delivered byte never reaches [processCommand]: a byte
    stored at index 0 either is the marker, and the cursor goes back to 0, or
    is not, and then the test [commandPacket[0] == CMD_COMMAND] fails for the
    rest of the frame. *)
Lemma write_byte_never_dispatches (byte : Z) (w : World) :
  marker_never_kept (device w) ->
  marker_never_kept (device (atecc608_write_byte libc_rand byte w))
  /\ dispatches (atecc608_write_byte libc_rand byte w) = dispatches w.
Proof.
  intros [Hpos Hinv]. unfold atecc608_write_byte, MAX_PACKET_SIZE. cbv zeta.
  destruct (packetPos (device w) <? 128) eqn:Hroom.
  - apply Z.ltb_lt in Hroom.
    cbn [packetPos set_packetPos commandPacket set_commandPacket device
           with_device].
    rewrite u8_small by lia.
    destruct (decide (packetPos (device w) = 0)) as [Hzero | Hlater].
    + rewrite Hzero. change (0 + 1 =? 1) with true. cbv iota.
      destruct (byte =? 3) eqn:Hmarker.
      * split; [| reflexivity]. split; [reflexivity | left; reflexivity].
      * split; [| reflexivity]. apply Z.eqb_neq in Hmarker.
        split; [cbn; lia |]. right.
        cbn [device with_device commandPacket set_packetPos set_commandPacket].
        change (Z.to_nat 0) with 0%nat. unfold CMD_COMMAND.
        destruct (byte_at_insert_0 (commandPacket (device w)) byte) as [-> | ->];
          [exact Hmarker | discriminate].
    + destruct Hinv as [Hzero | Hfirst]; [contradiction |].
      assert (Hne : (packetPos (device w) + 1 =? 1) = false)
        by (apply Z.eqb_neq; lia).
      rewrite Hne, byte_at_insert_later by lia.
      apply Z.eqb_neq in Hfirst. rewrite Hfirst, andb_false_r.
      split; [| reflexivity]. split; [cbn; lia |]. right.
      cbn [device with_device commandPacket set_packetPos set_commandPacket].
      rewrite byte_at_insert_later by lia. apply Z.eqb_neq. exact Hfirst.
  - apply Z.ltb_ge in Hroom. rewrite with_device_same.
    destruct Hinv as [Hzero | Hfirst]; [lia |].
    assert (Hne : (packetPos (device w) =? 1) = false)
      by (apply Z.eqb_neq; lia).
    apply Z.eqb_neq in Hfirst. rewrite Hne, Hfirst, andb_false_r.
    split; [| reflexivity]. split; [lia |]. right. apply Z.eqb_neq. exact Hfirst.
Qed.

Lemma deliver_never_dispatches (bytes : list Z) (w : World) :
  marker_never_kept (device w) ->
  dispatches (deliver libc_rand bytes w) = dispatches w.
Proof.
  revert w. induction bytes as [| b bytes IH]; intros w Hinv; [reflexivity |].
  cbn [deliver foldl].
  destruct (write_byte_never_dispatches b w Hinv) as [Hinv' Hcount].
  fold (deliver libc_rand bytes (atecc608_write_byte libc_rand b w)).
  rewrite IH by exact Hinv'. exact Hcount.
Qed.

(** After [chip_init], whatever bytes the bus delivers, [processCommand] is
    never called. *)
Lemma power_on_never_dispatches (now : Z) (bytes : list Z) :
  dispatches (deliver libc_rand bytes (power_on now)) = 0%nat.
Proof.
  rewrite deliver_never_dispatches; [reflexivity |].
  split; [reflexivity | left; reflexivity].
Qed.

(** C1, the code on the frame of the claim: after [chip_init], delivering
    0x03, 0x03, RANDOM, 0x00, 0x00, 0x00 calls [processCommand] not once but
    never.  The second 0x03 is taken for a word address again, RANDOM lands at
    index 0 of the command buffer, the cursor ends at 4 instead of 0, and no
    response is prepared ([executionTime] stays 0). *)
Theorem random_frame_not_dispatched (now : Z) :
  dispatches
    (deliver libc_rand [0x03; 0x03; CMD_RANDOM; 0x00; 0x00; 0x00] (power_on now))
  = 0%nat
  /\ packetPos
       (device (deliver libc_rand [0x03; 0x03; CMD_RANDOM; 0x00; 0x00; 0x00]
                  (power_on now))) = 4
  /\ take 2
       (commandPacket
          (device (deliver libc_rand [0x03; 0x03; CMD_RANDOM; 0x00; 0x00; 0x00]
                     (power_on now)))) = [CMD_RANDOM; 0x00]
  /\ executionTime
       (device (deliver libc_rand [0x03; 0x03; CMD_RANDOM; 0x00; 0x00; 0x00]
                  (power_on now))) = 0.
Proof. repeat split. Qed.

End Framing.

(** * Further properties of the file *)

(** ** The CRC *)

Lemma all_u16_spec (P : Z -> bool) (x : Z) :
  all_u16 P = true -> 0 <= x < 65536 -> P x = true.
Proof.
  intros Hall Hx. unfold all_u16 in Hall.
  rewrite forallb_forall in Hall.
  assert (Hhi : In (x / 256) (seqZ 0 256)).
  { apply list_elem_of_In, elem_of_seqZ.
    pose proof (Z.div_pos x 256).
    assert (x / 256 < 256) by (apply Z.div_lt_upper_bound; lia). lia. }
  specialize (Hall _ Hhi). rewrite forallb_forall in Hall.
  assert (Hlo : In (x mod 256) (seqZ 0 256)).
  { apply list_elem_of_In, elem_of_seqZ.
    pose proof (Z.mod_pos_bound x 256). lia. }
  specialize (Hall _ Hlo).
  rewrite <- Z.div_mod in Hall by lia. exact Hall.
Qed.

Lemma testbit_u16 (x n : Z) : Z.testbit (u16 x) n = (n <? 16) && Z.testbit x n.
Proof. unfold u16. change 65536 with (2 ^ 16). apply Z.testbit_mod_pow2. lia. Qed.

Lemma testbit_u8 (x n : Z) : Z.testbit (u8 x) n = (n <? 8) && Z.testbit x n.
Proof. unfold u8. change 256 with (2 ^ 8). apply Z.testbit_mod_pow2. lia. Qed.

Lemma testbit_byte_high (b n : Z) :
  0 <= b < 256 -> 8 <= n -> Z.testbit b n = false.
Proof.
  intros Hb Hn. rewrite <- (u8_small b Hb), testbit_u8.
  assert (H : (n <? 8) = false) by (apply Z.ltb_ge; lia).
  rewrite H. reflexivity.
Qed.

Lemma u16_range (z : Z) : 0 <= u16 z < 65536.
Proof. unfold u16. apply Z.mod_pos_bound. lia. Qed.

Lemma u8_range (z : Z) : 0 <= u8 z < 256.
Proof. unfold u8. apply Z.mod_pos_bound. lia. Qed.

Lemma u16_lxor (a b : Z) : u16 (Z.lxor a b) = Z.lxor (u16 a) (u16 b).
Proof.
  apply Z.bits_inj'. intros n Hn.
  rewrite Z.lxor_spec, !testbit_u16, Z.lxor_spec.
  destruct (n <? 16); reflexivity.
Qed.

Lemma crc_round_range (crc byte : Z) : 0 <= crc_round crc byte < 65536.
Proof. unfold crc_round. cbv zeta. apply u16_range. Qed.

Lemma foldl_crc_round_range (bytes : list Z) (crc : Z) :
  0 <= crc < 65536 -> 0 <= foldl crc_round crc bytes < 65536.
Proof.
  revert crc. induction bytes as [| b bytes IH]; intros crc Hcrc; [exact Hcrc |].
  cbn [foldl]. apply IH, crc_round_range.
Qed.

(** The byte that [crc_round] adds to the swapped register can as well be
    added to the high half of the register before the swap. *)
Lemma crc_round_byte_to_high (crc byte : Z) :
  0 <= byte < 256 ->
  crc_round crc byte = crc_round (Z.lxor crc (Z.shiftl byte 8)) 0.
Proof.
  intros Hb. unfold crc_round. cbv zeta.
  assert (H : u16 (Z.lxor (u16 (Z.lor (u8 (Z.shiftr crc 8)) (Z.shiftl crc 8)))
                     byte)
              = u16 (Z.lxor
                       (u16 (Z.lor
                               (u8 (Z.shiftr (Z.lxor crc (Z.shiftl byte 8)) 8))
                               (Z.shiftl (Z.lxor crc (Z.shiftl byte 8)) 8)))
                       0)).
  { apply Z.bits_inj'. intros n Hn.
    rewrite !testbit_u16, !Z.lxor_spec, !testbit_u16, !Z.lor_spec, !testbit_u8.
    rewrite !Z.shiftr_spec, !Z.shiftl_spec, !Z.lxor_spec by lia.
    rewrite Z.testbit_0_l.
    destruct (Z.ltb_spec n 16) as [H16 | H16]; [| reflexivity].
    destruct (Z.ltb_spec n 8) as [H8 | H8]; cbn [andb orb].
    - rewrite !(Z.testbit_neg_r _ (n - 8)) by lia.
      rewrite Z.shiftl_spec by lia.
      replace (n + 8 - 8) with n by lia.
      rewrite xorb_false_r, !orb_false_r. reflexivity.
    - rewrite (testbit_byte_high byte n) by lia.
      rewrite Z.shiftl_spec by lia.
      rewrite (Z.testbit_neg_r byte) by lia.
      rewrite !xorb_false_r. reflexivity. }
  rewrite H. reflexivity.
Qed.

Lemma u16_mask (z : Z) : u16 z = Z.land z 0xFFFF.
Proof.
  unfold u16. change 0xFFFF with (Z.ones 16). rewrite Z.land_ones by lia.
  reflexivity.
Qed.

Lemma u8_mask (z : Z) : u8 z = Z.land z 0xFF.
Proof. apply u8_land_ones. Qed.

Lemma crc_round_masked_eq (crc byte : Z) :
  crc_round crc byte = crc_round_masked crc byte.
Proof.
  unfold crc_round, crc_round_masked. cbv zeta.
  rewrite !u16_mask, !u8_mask. reflexivity.
Qed.

Lemma crc_bit_step_masked_eq (poly x : Z) :
  crc_bit_step poly x = crc_bit_step_masked poly x.
Proof.
  unfold crc_bit_step, crc_bit_step_masked. rewrite !u16_mask. reflexivity.
Qed.

Lemma crc_bit_steps_masked_eq (poly : Z) (n : nat) (x : Z) :
  Nat.iter n (crc_bit_step poly) x = Nat.iter n (crc_bit_step_masked poly) x.
Proof.
  induction n as [| n IH]; [reflexivity |].
  rewrite !Nat.iter_succ, IH. apply crc_bit_step_masked_eq.
Qed.

(** On every 16-bit register, [crc_round] with a zero byte is eight bit-serial
    steps with polynomial 0x1021. *)
Lemma crc_round_zero_byte_checked :
  all_u16
    (fun x =>
       crc_round_masked x 0 =? Nat.iter 8 (crc_bit_step_masked 0x1021) x)
  = true.
Proof. vm_compute. reflexivity. Qed.

(** On every 16-bit register, folding in its own high byte and then its own
    low byte gives 0. *)
Lemma crc_round_residue_checked :
  all_u16
    (fun c =>
       crc_round_masked (crc_round_masked c (Z.shiftr c 8)) (Z.land c 0xff)
       =? 0)
  = true.
Proof. vm_compute. reflexivity. Qed.

Lemma crc_round_bitwise (crc byte : Z) :
  0 <= crc < 65536 -> 0 <= byte < 256 ->
  crc_round crc byte = crc_bitwise_byte 0x1021 crc byte.
Proof.
  intros Hcrc Hb. rewrite crc_round_byte_to_high by exact Hb.
  unfold crc_bitwise_byte.
  rewrite crc_round_masked_eq, crc_bit_steps_masked_eq. apply Z.eqb_eq.
  apply (all_u16_spec _ _ crc_round_zero_byte_checked).
  rewrite <- (u16_small crc Hcrc).
  replace (Z.shiftl byte 8) with (u16 (Z.shiftl byte 8)).
  - rewrite <- u16_lxor. apply u16_range.
  - apply u16_small. rewrite Z.shiftl_mul_pow2 by lia. lia.
Qed.

(** The loop reads [data[counter]], [data[counter+1]], ... and stops when the
    counter reaches [length], provided that happens before the counter
    wraps. *)
Lemma calculateCRC_loop_returns
    (data : list Z) (length : Z) (todo : nat) (fuel : nat) (crc counter : Z) :
  0 <= counter -> length <= 255 ->
  counter + Z.of_nat todo = length ->
  (todo < fuel)%nat ->
  calculateCRC_loop fuel data length crc counter
  = Some (foldl crc_round crc (byte_at data <$> seqZ counter (Z.of_nat todo))).
Proof.
  revert fuel crc counter.
  induction todo as [| todo IH]; intros fuel crc counter Hc Hlen Hsum Hfuel.
  - destruct fuel as [| fuel]; [lia |]. cbn [calculateCRC_loop].
    assert (Hstop : (counter <? length) = false) by (apply Z.ltb_ge; lia).
    rewrite Hstop. reflexivity.
  - destruct fuel as [| fuel]; [lia |]. cbn [calculateCRC_loop].
    assert (Hgo : (counter <? length) = true) by (apply Z.ltb_lt; lia).
    rewrite Hgo, u8_small by lia.
    rewrite IH by lia.
    rewrite (seqZ_cons counter) by lia. cbn [fmap list_fmap foldl].
    repeat f_equal; lia.
Qed.

Lemma calculateCRC_loop_runs_forever
    (data : list Z) (length : Z) (fuel : nat) (crc counter : Z) :
  256 <= length -> 0 <= counter < 256 ->
  calculateCRC_loop fuel data length crc counter = None.
Proof.
  intros Hlen. revert crc counter.
  induction fuel as [| fuel IH]; intros crc counter Hc; [reflexivity |].
  cbn [calculateCRC_loop].
  assert (Hgo : (counter <? length) = true) by (apply Z.ltb_lt; lia).
  rewrite Hgo. apply IH, u8_range.
Qed.

(** Reading the first [n] places of a buffer that has them. *)
Lemma byte_at_seqZ_take (data : list Z) (n : nat) :
  (n <= length data)%nat ->
  byte_at data <$> seqZ 0 (Z.of_nat n) = take n data.
Proof.
  intros Hn. apply list_eq. intros i.
  rewrite list_lookup_fmap.
  destruct (decide (i < n)%nat) as [Hi | Hi].
  - rewrite lookup_seqZ_lt, lookup_take_lt by lia. cbn.
    replace (0 + Z.of_nat i) with (Z.of_nat i) by lia.
    symmetry. replace i with (Z.to_nat (Z.of_nat i)) at 1 by lia.
    apply lookup_byte_at. lia.
  - rewrite lookup_seqZ_ge, lookup_take_ge by lia. reflexivity.
Qed.

Lemma calculateCRC_fold (data : list Z) (n : nat) :
  (n <= 255)%nat -> (n <= length data)%nat ->
  calculateCRC data (Z.of_nat n) = Some (foldl crc_round 0 (take n data)).
Proof.
  intros Hn Hdata. unfold calculateCRC.
  rewrite (calculateCRC_loop_returns data (Z.of_nat n) n) by lia.
  rewrite byte_at_seqZ_take by exact Hdata. reflexivity.
Qed.

(** X1: [calculateCRC] returns for every length from 0 to 255, with the
    loop body folded over exactly the first [len] bytes and a result below
    65536; for every length of 256 or more the [uint8_t] counter wraps before
    it can reach the length and the call never returns. *)
Theorem calculateCRC_terminates_below_256 (data : list Z) (len : Z) :
  (0 <= len <= 255 -> (Z.to_nat len <= length data)%nat ->
     calculateCRC data len
     = Some (foldl crc_round 0 (take (Z.to_nat len) data))
     /\ 0 <= foldl crc_round 0 (take (Z.to_nat len) data) < 65536)
  /\ (256 <= len ->
      forall fuel : nat, calculateCRC_loop fuel data len 0 0 = None).
Proof.
  split.
  - intros Hlen Hdata. split.
    + rewrite <- (Z2Nat.id len) at 1 by lia.
      apply calculateCRC_fold; lia.
    + apply foldl_crc_round_range. lia.
  - intros Hlen fuel. apply calculateCRC_loop_runs_forever; lia.
Qed.

Lemma calculateCRC_terminates_below_256_witness :
  (0 <= 255 <= 255 /\ (Z.to_nat 255 <= length (replicate 255 7))%nat
   /\ calculateCRC (replicate 255 7) 255 = Some 2545)
  /\ (256 <= 256
      /\ calculateCRC_loop 1000 (replicate 256 7) 256 0 0 = None).
Proof.
  destruct (calculateCRC_terminates_below_256 (replicate 255 7) 255)
    as [Hreturns _].
  destruct (calculateCRC_terminates_below_256 (replicate 256 7) 256)
    as [_ Hloops].
  split.
  - split; [lia |]. split; [vm_compute; lia |].
    destruct Hreturns as [-> _]; [lia | vm_compute; lia |].
    vm_compute. reflexivity.
  - split; [lia |]. apply Hloops. lia.
Defined.

Lemma foldl_crc_round_bitwise (bytes : list Z) (crc : Z) :
  forallb is_u8 bytes = true -> 0 <= crc < 65536 ->
  foldl crc_round crc bytes = foldl (crc_bitwise_byte 0x1021) crc bytes.
Proof.
  revert crc. induction bytes as [| b bytes IH]; intros crc Hbytes Hcrc;
    [reflexivity |].
  cbn [forallb] in Hbytes. apply andb_true_iff in Hbytes.
  destruct Hbytes as [Hb Hbytes]. apply is_u8_range in Hb.
  cbn [foldl]. rewrite <- crc_round_bitwise by assumption.
  apply IH; [exact Hbytes | apply crc_round_range].
Qed.

(** The polynomial is not the 0x8005 of the unused local [polynom]. *)
Lemma calculateCRC_is_not_poly_8005 :
  calculateCRC [0x01] 1 = Some 0x1021 /\ crc_bitwise 0x8005 [0x01] = 0x8005.
Proof. split; vm_compute; reflexivity. Qed.

(** X2: on a message of at most 255 bytes, [calculateCRC] is the bit-serial
    CRC-16 with generator polynomial 0x1021, most significant bit first,
    register initially 0 and no final XOR. *)
Theorem calculateCRC_is_bit_serial_1021 (bytes : list Z) :
  forallb is_u8 bytes = true -> (length bytes <= 255)%nat ->
  calculateCRC bytes (Z.of_nat (length bytes))
  = Some (crc_bitwise 0x1021 bytes).
Proof.
  intros Hbytes Hlen. rewrite calculateCRC_fold by lia.
  rewrite firstn_all. unfold crc_bitwise. f_equal.
  apply foldl_crc_round_bitwise; [exact Hbytes | lia].
Qed.

Lemma calculateCRC_is_bit_serial_1021_witness :
  forallb is_u8 (seqZ 49 9) = true /\ (length (seqZ 49 9) <= 255)%nat
  /\ crc_bitwise 0x1021 (seqZ 49 9) = 0x31C3
  /\ calculateCRC (seqZ 49 9) (Z.of_nat (length (seqZ 49 9)))
     = Some (crc_bitwise 0x1021 (seqZ 49 9)).
Proof.
  split; [vm_compute; reflexivity |]. split; [vm_compute; lia |].
  split; [vm_compute; reflexivity |].
  apply (calculateCRC_is_bit_serial_1021 (seqZ 49 9));
    [vm_compute; reflexivity | vm_compute; lia].
Defined.

(** X3: a message of at most 253 bytes followed by the two bytes of its own
    [calculateCRC], high byte first, has [calculateCRC] 0. *)
Theorem calculateCRC_residue_zero (bytes : list Z) (crc : Z) :
  (length bytes <= 253)%nat ->
  calculateCRC bytes (Z.of_nat (length bytes)) = Some crc ->
  calculateCRC (bytes ++ [Z.shiftr crc 8; Z.land crc 0xff])
    (Z.of_nat (length bytes) + 2)
  = Some 0.
Proof.
  intros Hlen Hcrc. rewrite calculateCRC_fold, firstn_all in Hcrc by lia.
  injection Hcrc as Hcrc.
  replace (Z.of_nat (length bytes) + 2)
    with (Z.of_nat (length (bytes ++ [Z.shiftr crc 8; Z.land crc 0xff])))
    by (rewrite length_app; cbn [length]; lia).
  rewrite calculateCRC_fold, firstn_all
    by (rewrite length_app; cbn [length]; lia).
  rewrite foldl_app. cbn [foldl]. rewrite Hcrc. f_equal.
  rewrite !crc_round_masked_eq. apply Z.eqb_eq.
  apply (all_u16_spec _ _ crc_round_residue_checked).
  rewrite <- Hcrc. apply foldl_crc_round_range. lia.
Qed.

Lemma calculateCRC_residue_zero_witness :
  (length (seqZ 49 9) <= 253)%nat
  /\ calculateCRC (seqZ 49 9) (Z.of_nat (length (seqZ 49 9))) = Some 0x31C3
  /\ calculateCRC (seqZ 49 9 ++ [Z.shiftr 0x31C3 8; Z.land 0x31C3 0xff])
       (Z.of_nat (length (seqZ 49 9)) + 2)
     = Some 0.
Proof.
  split; [vm_compute; lia |]. split; [vm_compute; reflexivity |].
  apply (calculateCRC_residue_zero (seqZ 49 9) 0x31C3);
    [vm_compute; lia | vm_compute; reflexivity].
Defined.

(** ** Sending a command *)

Section SendingProperties.

Variable libc_rand : Z -> nat -> Z.

(** [processCommand] works on the response side only: zones, command buffer,
    command cursor, state and seed stay, and the call is counted. *)
Lemma processCommand_frame (w : World) :
  same_zones (device w) (device (processCommand libc_rand w))
  /\ commandPacket (device (processCommand libc_rand w))
     = commandPacket (device w)
  /\ packetPos (device (processCommand libc_rand w)) = packetPos (device w)
  /\ state (device (processCommand libc_rand w)) = state (device w)
  /\ rng_seed (processCommand libc_rand w) = rng_seed w
  /\ dispatches (processCommand libc_rand w) = S (dispatches w).
Proof.
  unfold processCommand, same_zones. cbv zeta. cbn [device].
  repeat match goal with
         | |- context [if ?c then _ else _] => destruct c
         end; repeat split.
Qed.

Lemma insert_succ_cons (i : nat) (x a : Z) (l : list Z) :
  <[S i := x]> (a :: l) = a :: <[i := x]> l.
Proof. reflexivity. Qed.

(** The command buffer as [sendCommand] leaves it before the call of
    [processCommand], for a payload that fits. *)
Lemma sendCommand_packet
    (command p1 p2 : Z) (payload : list Z) (w : World) :
  length (commandPacket (device w)) = 128%nat ->
  (length payload <= 121)%nat ->
  0 <= p2 < 65536 ->
  exists crc,
    calculateCRC (frame_body command p1 p2 payload)
      (Z.of_nat (length (frame_body command p1 p2 payload))) = Some crc
    /\ sendCommand libc_rand command p1 p2 (Some payload)
         (Z.of_nat (length payload)) w
       = Some (true,
               processCommand libc_rand
                 (with_device
                    (set_commandPacket
                       (CMD_COMMAND :: frame_body command p1 p2 payload
                        ++ u8 crc
                        :: drop (7 + length payload) (commandPacket (device w)))
                       (device w)) w)).
Proof.
  intros Hlen Hfit Hp2.
  remember (length payload) as n eqn:Hn.
  remember (frame_body command p1 p2 payload) as body eqn:Hb.
  assert (Hbody : length body = (5 + n)%nat).
  { rewrite Hb. unfold frame_body. rewrite length_app, Hn. reflexivity. }
  exists (foldl crc_round 0 body).
  split.
  { rewrite calculateCRC_fold by lia. rewrite firstn_all. reflexivity. }
  unfold sendCommand. cbv zeta.
  destruct (commandPacket (device w)) as [| c0 [| c1 [| c2 [| c3 [| c4 [| c5 rest]]]]]]
    eqn:Hcp; cbn [length] in Hlen; try lia.
  cbn [insert list_insert list_alter].
  assert (Hrest : length rest = 122%nat) by lia.
  rewrite (u8_small (7 + Z.of_nat n)) by lia.
  rewrite (u8_small (Z.land p2 255)).
  2:{ change 255 with (Z.ones 8). rewrite Z.land_ones by lia.
      apply Z.mod_pos_bound. lia. }
  rewrite (u8_small (Z.shiftr p2 8)).
  2:{ rewrite Z.shiftr_div_pow2 by lia. change (2 ^ 8) with 256.
      split; [apply Z.div_pos; lia | apply Z.div_lt_upper_bound; lia]. }
  assert (Hpacket :
            (if 0 <? Z.of_nat n
             then memcpy_to
                    (CMD_COMMAND :: 7 + Z.of_nat n :: command :: p1
                     :: Z.land p2 255 :: Z.shiftr p2 8 :: rest)
                    6 payload (Z.of_nat n)
             else CMD_COMMAND :: 7 + Z.of_nat n :: command :: p1
                  :: Z.land p2 255 :: Z.shiftr p2 8 :: rest)
            = CMD_COMMAND :: body ++ drop n rest).
  { assert (Hcopy : memcpy_to
                      (CMD_COMMAND :: 7 + Z.of_nat n :: command :: p1
                       :: Z.land p2 255 :: Z.shiftr p2 8 :: rest)
                      6 payload (Z.of_nat n)
                    = CMD_COMMAND :: body ++ drop n rest).
    { unfold memcpy_to. rewrite Nat2Z.id. change (Z.to_nat 6) with 6%nat.
      rewrite !list_inserts_cons. rewrite (take_ge payload) by lia.
      rewrite Hb. unfold frame_body. rewrite <- Hn. cbn [app]. repeat f_equal.
      rewrite <- (take_drop n rest) at 1.
      apply list_inserts_0_r. rewrite length_take. lia. }
    destruct (0 <? Z.of_nat n) eqn:Hpos; [exact Hcopy |].
    apply Z.ltb_ge in Hpos. assert (Hn0 : n = 0%nat) by lia.
    rewrite Hb. unfold frame_body. rewrite <- Hn.
    destruct payload; [| cbn [length] in Hn; lia]. rewrite Hn0. reflexivity. }
  rewrite Hpacket. cbn [skipn]. rewrite drop_0.
  assert (Hsize : to_size_t (7 + Z.of_nat n - 2) = Z.of_nat (length body)).
  { unfold to_size_t. rewrite Z.mod_small by lia. lia. }
  rewrite Hsize.
  rewrite calculateCRC_fold by (rewrite ?length_app, ?length_drop; lia).
  rewrite take_app_length.
  replace (Z.to_nat (7 + Z.of_nat n - 1)) with (S (length body + 0)) by lia.
  rewrite insert_succ_cons.
  rewrite insert_app_r.
  destruct (drop n rest) as [| x tail] eqn:Hdrop.
  { apply (f_equal length) in Hdrop. rewrite length_drop in Hdrop.
    cbn [length] in Hdrop. lia. }
  cbn [insert list_insert list_alter].
  assert (Htail : tail = drop (S n) rest).
  { replace (S n) with (n + 1)%nat by lia.
    rewrite <- drop_drop, Hdrop. reflexivity. }
  rewrite Htail. 
  replace (7 + n)%nat with (S (S (S (S (S (S (S n))))))) by lia.
  cbn [skipn]. reflexivity.
Qed.

(** X4: for a payload of at most 121 bytes, [sendCommand] returns [true],
    leaves in the command buffer the marker 0x03, the count 7 + payload
    length, the opcode, [p1], [p2] low byte first, the payload and the low
    byte of [calculateCRC] over count .. payload, keeps the bytes behind the
    frame, the command cursor and the zones, and calls [processCommand]
    once. *)
Theorem sendCommand_builds_frame
    (command p1 p2 : Z) (payload : list Z) (w : World) :
  length (commandPacket (device w)) = 128%nat ->
  (length payload <= 121)%nat ->
  0 <= p2 < 65536 ->
  exists crc w',
    sendCommand libc_rand command p1 p2 (Some payload)
      (Z.of_nat (length payload)) w = Some (true, w')
    /\ calculateCRC (frame_body command p1 p2 payload)
         (Z.of_nat (length (frame_body command p1 p2 payload))) = Some crc
    /\ commandPacket (device w')
       = CMD_COMMAND :: frame_body command p1 p2 payload
         ++ u8 crc :: drop (7 + length payload) (commandPacket (device w))
    /\ packetPos (device w') = packetPos (device w)
    /\ dispatches w' = S (dispatches w)
    /\ same_zones (device w) (device w').
Proof.
  intros Hlen Hfit Hp2.
  destruct (sendCommand_packet command p1 p2 payload w Hlen Hfit Hp2)
    as (crc & Hcrc & Hsend).
  eexists crc, _. split; [exact Hsend |]. split; [exact Hcrc |].
  match goal with
  | |- context [processCommand libc_rand ?w0] =>
      destruct (processCommand_frame w0) as (Hz & Hcp & Hpos & _ & _ & Hcount)
  end.
  rewrite Hcp, Hpos, Hcount. repeat split; apply Hz.
Qed.

(** A 16-bit value split into low and high byte and put together again as
    [processCommand] does. *)
Lemma p2_bytes_checked :
  all_u16 (fun p => u16 (Z.lor (Z.shiftl (Z.shiftr p 8) 8) (Z.land p 0xFF)) =? p)
  = true.
Proof. vm_compute. reflexivity. Qed.

(** X5: what [sendCommand] stores is what [processCommand] decodes: after a
    [sendCommand] with a payload of at most 121 bytes, the locals [command],
    [p1] and [p2] read from bytes 2, 3 and 4-5 of the command buffer are the
    arguments of [sendCommand]. *)
Theorem sendCommand_fields_decoded
    (command p1 p2 : Z) (payload : list Z) (w : World) :
  length (commandPacket (device w)) = 128%nat ->
  (length payload <= 121)%nat ->
  0 <= p2 < 65536 ->
  exists w',
    sendCommand libc_rand command p1 p2 (Some payload)
      (Z.of_nat (length payload)) w = Some (true, w')
    /\ frame_command (device w') = command
    /\ frame_p1 (device w') = p1
    /\ frame_p2 (device w') = p2.
Proof.
  intros Hlen Hfit Hp2.
  destruct (sendCommand_packet command p1 p2 payload w Hlen Hfit Hp2)
    as (crc & _ & Hsend).
  eexists. split; [exact Hsend |].
  match goal with
  | |- context [processCommand libc_rand ?w0] =>
      destruct (processCommand_frame w0) as (_ & Hcp & _)
  end.
  unfold frame_command, frame_p1, frame_p2. rewrite Hcp.
  cbn [device with_device commandPacket set_commandPacket].
  unfold frame_body. cbn [app].
  split; [reflexivity |]. split; [reflexivity |].
  change (byte_at _ 5) with (Z.shiftr p2 8).
  change (byte_at _ 4) with (Z.land p2 0xFF).
  apply Z.eqb_eq. apply (all_u16_spec _ _ p2_bytes_checked). exact Hp2.
Qed.

Lemma land_255_range (r : Z) : 0 <= Z.land r 0xFF < 256.
Proof.
  change 0xFF with (Z.ones 8). rewrite Z.land_ones by lia.
  apply Z.mod_pos_bound. lia.
Qed.

(** The loop of [generateRandomNumber] in closed form: the next [n] outputs of
    the generator, each masked to a byte. *)
Lemma generateRandomNumber_loop_closed (n : nat) (w : World) :
  generateRandomNumber_loop libc_rand n w
  = ((fun k => Z.land (libc_rand (rng_seed w) k) 0xFF) <$> seq (rng_calls w) n,
     mkWorld (device w) (rng_seed w) (rng_calls w + n)%nat (dispatches w)).
Proof.
  revert w. induction n as [| n IH]; intros w.
  - cbn. rewrite Nat.add_0_r. destruct w; reflexivity.
  - cbn [generateRandomNumber_loop]. unfold rand. rewrite IH.
    cbn [device rng_seed rng_calls dispatches seq fmap list_fmap].
    rewrite u8_small by apply land_255_range.
    replace (S (rng_calls w) + n)%nat with (rng_calls w + S n)%nat by lia.
    reflexivity.
Qed.

End SendingProperties.

(** ** Pulling response bytes *)

Lemma set_responsePos_same (d : ATECC608) : set_responsePos (responsePos d) d = d.
Proof. destruct d; reflexivity. Qed.

(** [n] calls of [atecc608_read_byte] in closed form. *)
Lemma take_response_closed (n : nat) (d : ATECC608) :
  length (responsePacket d) = 128%nat ->
  0 <= responsePos d <= 128 ->
  take_response n d
  = (take n (drop (Z.to_nat (responsePos d)) (responsePacket d))
     ++ replicate (n - (128 - Z.to_nat (responsePos d))) 0,
     set_responsePos (Z.min (responsePos d + Z.of_nat n) 128) d).
Proof.
  revert d. induction n as [| n IH]; intros d Hlen Hpos.
  - cbn [take_response take replicate Nat.sub app].
    rewrite Z.min_l, Z.add_0_r, set_responsePos_same by lia. reflexivity.
  - cbn [take_response]. unfold atecc608_read_byte, MAX_PACKET_SIZE.
    destruct (responsePos d <? 128) eqn:Hroom.
    + apply Z.ltb_lt in Hroom. rewrite u8_small by lia.
      rewrite IH by (cbn [responsePacket responsePos set_responsePos]; lia).
      cbn [responsePacket responsePos set_responsePos].
      rewrite (drop_S (responsePacket d) (byte_at (responsePacket d) (responsePos d))
                 (Z.to_nat (responsePos d)))
        by (apply lookup_byte_at; lia).
      cbn [take app].
      replace (Z.to_nat (responsePos d + 1)) with (S (Z.to_nat (responsePos d)))
        by lia.
      replace (S n - (128 - Z.to_nat (responsePos d)))%nat
        with (n - (128 - S (Z.to_nat (responsePos d))))%nat by lia.
      replace (Z.min (responsePos d + 1 + Z.of_nat n) 128)
        with (Z.min (responsePos d + Z.of_nat (S n)) 128) by lia.
      destruct d; reflexivity.
    + apply Z.ltb_ge in Hroom. assert (Hfull : responsePos d = 128) by lia.
      rewrite IH by assumption. rewrite Hfull.
      rewrite !drop_ge by lia. rewrite !take_nil.
      change (Z.to_nat 128) with 128%nat.
      replace (128 - 128)%nat with 0%nat by lia. rewrite !Nat.sub_0_r.
      rewrite !Z.min_r by lia. reflexivity.
Qed.

(** X8: on a device with its 128-byte response buffer and the response cursor
    at most 128, [n] calls of [atecc608_read_byte] return the buffer bytes
    from the cursor up to index 127 and then only zeros; the cursor advances
    by [n] but stops at 128, and nothing else changes. *)
Theorem take_response_slice (n : nat) (d : ATECC608) :
  length (responsePacket d) = 128%nat ->
  0 <= responsePos d <= 128 ->
  fst (take_response n d)
  = take n (drop (Z.to_nat (responsePos d)) (responsePacket d))
    ++ replicate (n - (128 - Z.to_nat (responsePos d))) 0
  /\ snd (take_response n d)
     = set_responsePos (Z.min (responsePos d + Z.of_nat n) 128) d.
Proof.
  intros Hlen Hpos. rewrite take_response_closed by assumption.
  split; reflexivity.
Qed.

Lemma take_response_slice_witness :
  length (responsePacket (set_responsePacket (seqZ 0 128) fresh_device))
  = 128%nat
  /\ 0 <= responsePos (set_responsePacket (seqZ 0 128) fresh_device) <= 128
  /\ fst (take_response 130 (set_responsePacket (seqZ 0 128) fresh_device))
     = seqZ 0 128 ++ [0; 0]
  /\ responsePos
       (snd (take_response 130 (set_responsePacket (seqZ 0 128) fresh_device)))
     = 128.
Proof.
  destruct (take_response_slice 130 (set_responsePacket (seqZ 0 128) fresh_device))
    as [Hbytes Hstate]; [reflexivity | vm_compute; split; discriminate |].
  split; [reflexivity |]. split; [vm_compute; split; discriminate |].
  split; [rewrite Hbytes | rewrite Hstate]; vm_compute; reflexivity.
Defined.

(** ** Key store *)

(** Two 32-byte slots of the data zone do not overlap. *)
Lemma memcpy_slot_other (zone key : list Z) (i j : Z) :
  0 <= i -> 0 <= j -> i <> j ->
  memcpy_from (memcpy_to zone (32 * i) key 32) (32 * j) 32
  = memcpy_from zone (32 * j) 32.
Proof.
  intros Hi Hj Hne. unfold memcpy_from, memcpy_to.
  apply list_eq. intros k.
  destruct (decide (k < Z.to_nat 32)%nat) as [Hk | Hk].
  - rewrite !lookup_take_lt, !lookup_drop by exact Hk.
    assert (Hshort : (length (take (Z.to_nat 32) key) <= 32)%nat).
    { rewrite length_take. lia. }
    destruct (decide (j < i)) as [Hlt | Hgt].
    + apply list_lookup_inserts_lt. lia.
    + apply list_lookup_inserts_ge. lia.
  - rewrite !lookup_take_ge by lia. reflexivity.
Qed.

(** X11: for a slot index below 16, a 32-byte key and a data zone of 1024
    bytes, [storeKey] succeeds, reading the slot back gives the key, every
    other 32-byte slot of the data zone reads as before, and the config zone,
    the OTP zone and [lastError] are unchanged. *)
Theorem storeKey_slot_isolated
    (d : ATECC608) (key_id : Z) (key : list Z) (key_type : Z) :
  length (dataZone d) = 1024%nat ->
  0 <= key_id < 16 ->
  length key = 32%nat ->
  fst (storeKey d key_id key key_type) = true
  /\ read (snd (storeKey d key_id key key_type)) ZONE_DATA (32 * key_id) 32
     = (Some key, snd (storeKey d key_id key key_type))
  /\ (forall j, 0 <= j < 32 -> j <> key_id ->
        fst (read (snd (storeKey d key_id key key_type)) ZONE_DATA (32 * j) 32)
        = fst (read d ZONE_DATA (32 * j) 32))
  /\ configZone (snd (storeKey d key_id key key_type)) = configZone d
  /\ otpZone (snd (storeKey d key_id key key_type)) = otpZone d
  /\ lastError (snd (storeKey d key_id key key_type)) = lastError d.
Proof.
  intros Hdata Hid Hkey.
  assert (Hstore : storeKey d key_id key key_type
                   = (true, set_dataZone
                              (memcpy_to (dataZone d) (32 * key_id) key 32) d)).
  { unfold storeKey.
    assert (Hlow : (16 <=? key_id) = false) by (apply Z.leb_gt; lia).
    rewrite Hlow, u16_small by lia. unfold write.
    change (32 <? 32) with false. cbv iota.
    change (zone_switch ZONE_DATA) with (Some (PtrData, DATA_SIZE)).
    cbv iota beta.
    assert (Hfit : (DATA_SIZE <? 32 * key_id + 32) = false)
      by (apply Z.ltb_ge; unfold DATA_SIZE; lia).
    rewrite Hfit. reflexivity. }
  assert (Hread : forall (d0 : ATECC608) (j : Z), 0 <= j < 32 ->
             read d0 ZONE_DATA (32 * j) 32
             = (Some (memcpy_from (dataZone d0) (32 * j) 32), d0)).
  { intros d0 j Hj. unfold read. change (32 <? 32) with false. cbv iota.
    change (zone_switch ZONE_DATA) with (Some (PtrData, DATA_SIZE)).
    cbv iota beta.
    assert (Hfit : (DATA_SIZE <? 32 * j + 32) = false)
      by (apply Z.ltb_ge; unfold DATA_SIZE; lia).
    rewrite Hfit. reflexivity. }
  rewrite Hstore. cbn [fst snd]. split; [reflexivity |].
  split; [| split; [| repeat split]].
  - rewrite Hread by lia. cbn [dataZone set_dataZone].
    rewrite memcpy_from_to; [reflexivity | rewrite Hkey; reflexivity | lia].
  - intros j Hj Hne. rewrite !Hread by exact Hj. cbn [fst dataZone set_dataZone].
    f_equal. apply memcpy_slot_other; lia.
Qed.

Lemma storeKey_slot_isolated_witness :
  length (dataZone fresh_device) = 1024%nat
  /\ 0 <= 15 < 16
  /\ length (seqZ 1 32) = 32%nat
  /\ fst (storeKey fresh_device 15 (seqZ 1 32) 0x04) = true
  /\ read (snd (storeKey fresh_device 15 (seqZ 1 32) 0x04)) ZONE_DATA (32 * 15) 32
     = (Some (seqZ 1 32), snd (storeKey fresh_device 15 (seqZ 1 32) 0x04))
  /\ fst (read (snd (storeKey fresh_device 15 (seqZ 1 32) 0x04)) ZONE_DATA
            (32 * 14) 32)
     = fst (read fresh_device ZONE_DATA (32 * 14) 32).
Proof.
  destruct (storeKey_slot_isolated fresh_device 15 (seqZ 1 32) 0x04)
    as (Hok & Hback & Hother & _); [reflexivity | lia | reflexivity |].
  split; [reflexivity |]. split; [lia |]. split; [reflexivity |].
  split; [exact Hok |]. split; [exact Hback |].
  apply Hother; lia.
Defined.

(** ** Dispatch and response *)

Section DispatchProperties.

Variable libc_rand : Z -> nat -> Z.

(** X6: a dispatched NONCE, GENKEY, SIGN, VERIFY, READ, WRITE, LOCK or INFO
    frame changes nothing but [executionTime] (in particular WRITE writes no
    zone and LOCK sets no lock byte), and a frame with any opcode outside the
    nine known ones changes nothing but [lastError], which becomes 7; neither
    draws a random number. *)
Theorem processCommand_stub_opcodes (w : World) :
  (In (frame_command (device w))
      [CMD_NONCE; CMD_GENKEY; CMD_SIGN; CMD_VERIFY; CMD_READ; CMD_WRITE;
       CMD_LOCK; CMD_INFO] ->
   exists t, 1 <= t <= 115
     /\ processCommand libc_rand w
        = mkWorld (simulateExecutionTime t (device w)) (rng_seed w)
            (rng_calls w) (S (dispatches w)))
  /\ (~ In (frame_command (device w))
        [CMD_RANDOM; CMD_NONCE; CMD_GENKEY; CMD_SIGN; CMD_VERIFY; CMD_READ;
         CMD_WRITE; CMD_LOCK; CMD_INFO] ->
      processCommand libc_rand w
      = mkWorld (set_lastError 7 (device w)) (rng_seed w) (rng_calls w)
          (S (dispatches w))).
Proof.
  unfold frame_command, processCommand. cbv zeta. cbn [device In].
  split.
  - intros Hin.
    repeat match goal with
           | |- context [?a =? ?b] => destruct (Z.eqb_spec a b)
           end;
      try (exfalso; unfold CMD_RANDOM, CMD_NONCE, CMD_GENKEY, CMD_SIGN,
             CMD_VERIFY, CMD_READ, CMD_WRITE, CMD_LOCK, CMD_INFO in *; lia);
      eexists; (split; [| reflexivity]); lia.
  - intros Hout.
    repeat match goal with
           | |- context [?a =? ?b] => destruct (Z.eqb_spec a b)
           end;
      try (exfalso; apply Hout; intuition congruence).
    reflexivity.
Qed.

(** What a dispatched RANDOM frame does to the response side. *)
Lemma processCommand_random_effect (w : World) :
  length (responsePacket (device w)) = 128%nat ->
  frame_command (device w) = CMD_RANDOM ->
  responsePacket (device (processCommand libc_rand w))
  = byte_at (responsePacket (device w)) 0
    :: ((fun k => Z.land (libc_rand (rng_seed w) k) 0xFF)
          <$> seq (rng_calls w) 32)
    ++ drop 33 (responsePacket (device w))
  /\ responsePos (device (processCommand libc_rand w)) = 0
  /\ executionTime (device (processCommand libc_rand w)) = 23
  /\ lastError (device (processCommand libc_rand w)) = lastError (device w)
  /\ rng_calls (processCommand libc_rand w) = (rng_calls w + 32)%nat
  /\ same_zones (device w) (device (processCommand libc_rand w)).
Proof.
  intros Hlen Hcmd. unfold frame_command in Hcmd.
  unfold processCommand. cbv zeta. cbn [device]. rewrite Hcmd.
  change (CMD_RANDOM =? CMD_RANDOM) with true. cbv iota.
  unfold generateRandomNumber. rewrite generateRandomNumber_loop_closed.
  cbn [device rng_seed rng_calls dispatches with_device].
  set (random := (fun k => Z.land (libc_rand (rng_seed w) k) 0xFF)
                   <$> seq (rng_calls w) (Z.to_nat 32)).
  assert (Hrandom : length random = 32%nat).
  { unfold random. rewrite length_fmap, length_seq. reflexivity. }
  destruct (responsePacket (device w)) as [| r0 rest] eqn:Hrp;
    cbn [length] in Hlen; [lia |].
  assert (Hcopy : memcpy_to (r0 :: rest) 1 random 32
                  = r0 :: random ++ drop 32 rest).
  { unfold memcpy_to. change (Z.to_nat 1) with 1%nat.
    rewrite list_inserts_cons, (take_ge random) by (rewrite Hrandom; reflexivity).
    f_equal. rewrite <- (take_drop 32 rest) at 1.
    apply list_inserts_0_r. rewrite length_take, Hrandom. lia. }
  unfold setResponse, simulateExecutionTime.
  cbn [responsePacket set_responsePacket set_responsePos responsePos
         executionTime lastError configZone otpZone dataZone].
  rewrite Hcopy.
  assert (Hself : forall l : list Z, memcpy_to l 0 l 33 = l).
  { intros l. unfold memcpy_to. change (Z.to_nat 0) with 0%nat.
    rewrite <- (take_drop (Z.to_nat 33) l) at 2.
    destruct (decide (Z.to_nat 33 <= length l)%nat) as [Hl | Hs].
    - rewrite list_inserts_0_r by (rewrite !length_take; lia).
      apply take_drop.
    - rewrite (take_ge l), (drop_ge l), app_nil_r by lia.
      rewrite <- (app_nil_r l) at 2.
      rewrite list_inserts_0_r by reflexivity. apply app_nil_r. }
  rewrite Hself.
  split; [| repeat split].
  unfold byte_at. cbn [lookup list_lookup default Z.to_nat]. 
  change (Z.to_nat 0) with 0%nat. cbn.
  reflexivity.
Qed.


(** X7: a dispatched RANDOM frame, on a device with its 128-byte response
    buffer, stores the next 32 outputs of the generator, each masked to a
    byte, at response bytes 1..32, leaves response byte 0 and bytes 33..127
    as they were, sets the response cursor to 0 and [executionTime] to 23,
    draws exactly 32 random numbers and leaves [lastError] and the zones
    alone. *)
Theorem processCommand_random (w : World) :
  length (responsePacket (device w)) = 128%nat ->
  frame_command (device w) = CMD_RANDOM ->
  responsePacket (device (processCommand libc_rand w))
  = byte_at (responsePacket (device w)) 0
    :: ((fun k => Z.land (libc_rand (rng_seed w) k) 0xFF)
          <$> seq (rng_calls w) 32)
    ++ drop 33 (responsePacket (device w))
  /\ responsePos (device (processCommand libc_rand w)) = 0
  /\ executionTime (device (processCommand libc_rand w)) = 23
  /\ lastError (device (processCommand libc_rand w)) = lastError (device w)
  /\ rng_calls (processCommand libc_rand w) = (rng_calls w + 32)%nat
  /\ same_zones (device w) (device (processCommand libc_rand w)).
Proof. apply processCommand_random_effect. Qed.


Lemma take_response_from_start (n : nat) (d : ATECC608) :
  length (responsePacket d) = 128%nat -> responsePos d = 0 -> (n <= 128)%nat ->
  fst (take_response n d) = take n (responsePacket d).
Proof.
  intros Hlen Hpos Hn. rewrite take_response_closed by lia. cbn [fst].
  rewrite Hpos. change (Z.to_nat 0) with 0%nat. rewrite drop_0.
  replace (n - (128 - 0))%nat with 0%nat by lia. apply app_nil_r.
Qed.

(** X9: after a dispatched RANDOM frame, pulling 33 bytes gives response byte
    0 as it was before the dispatch, followed by the 32 random bytes; pulling
    up to 95 bytes more gives bytes 33.. of the response buffer as they were
    before the dispatch, whatever they were. *)
Theorem random_response_pulled (w : World) (n : nat) :
  length (responsePacket (device w)) = 128%nat ->
  frame_command (device w) = CMD_RANDOM ->
  (n <= 95)%nat ->
  fst (take_response (33 + n) (device (processCommand libc_rand w)))
  = byte_at (responsePacket (device w)) 0
    :: ((fun k => Z.land (libc_rand (rng_seed w) k) 0xFF)
          <$> seq (rng_calls w) 32)
    ++ take n (drop 33 (responsePacket (device w))).
Proof.
  intros Hlen Hcmd Hn.
  destruct (processCommand_random_effect w Hlen Hcmd) as (Hrp & Hpos & _).
  set (random := (fun k => Z.land (libc_rand (rng_seed w) k) 0xFF)
                   <$> seq (rng_calls w) 32) in *.
  assert (Hrandom : length random = 32%nat).
  { unfold random. rewrite length_fmap, length_seq. reflexivity. }
  rewrite take_response_from_start; [| | exact Hpos | lia].
  - rewrite Hrp.
    change (byte_at (responsePacket (device w)) 0 :: random
            ++ drop 33 (responsePacket (device w)))
      with ((byte_at (responsePacket (device w)) 0 :: random)
            ++ drop 33 (responsePacket (device w))).
    rewrite (take_app_add' _ _ 33 n)
      by (cbn [length]; rewrite Hrandom; lia).
    reflexivity.
  - rewrite Hrp. cbn [length]. rewrite length_app, length_drop, Hrandom, Hlen.
    reflexivity.
Qed.

(** X10: [generateRandomNumber] returns exactly [len] bytes, the next [len]
    outputs of the generator masked with 0xFF in call order, each between 0
    and 255; it advances the generator by [len] calls and leaves the device
    untouched. *)
Theorem generateRandomNumber_bytes (len : Z) (w : World) :
  0 <= len ->
  fst (generateRandomNumber libc_rand len w)
  = (fun k => Z.land (libc_rand (rng_seed w) k) 0xFF)
      <$> seq (rng_calls w) (Z.to_nat len)
  /\ length (fst (generateRandomNumber libc_rand len w)) = Z.to_nat len
  /\ forallb is_u8 (fst (generateRandomNumber libc_rand len w)) = true
  /\ rng_calls (snd (generateRandomNumber libc_rand len w))
     = (rng_calls w + Z.to_nat len)%nat
  /\ device (snd (generateRandomNumber libc_rand len w)) = device w.
Proof.
  intros Hlen. unfold generateRandomNumber.
  rewrite generateRandomNumber_loop_closed. cbn [fst snd rng_calls device].
  split; [reflexivity |]. split; [rewrite length_fmap, length_seq; reflexivity |].
  split; [| split; reflexivity].
  apply forallb_forall. intros x Hx.
  apply list_elem_of_In, list_elem_of_fmap in Hx. destruct Hx as (k & -> & _).
  apply is_u8_range, land_255_range.
Qed.

(** X12: [generatePrivateKey] draws its 32 random bytes before the slot index
    is looked at.  For a slot below 16 on a 1024-byte data zone it succeeds
    and the slot then reads back as these 32 bytes; for a slot of 16 or more
    it fails with [lastError] 8 and unchanged zones, and the generator has
    advanced by 32 calls all the same. *)
Theorem generatePrivateKey_draws_first (key_id key_type : Z) (w : World) :
  (0 <= key_id < 16 -> length (dataZone (device w)) = 1024%nat ->
     fst (generatePrivateKey libc_rand key_id key_type w) = true
     /\ fst (read (device (snd (generatePrivateKey libc_rand key_id key_type w)))
               ZONE_DATA (32 * key_id) 32)
        = Some ((fun k => Z.land (libc_rand (rng_seed w) k) 0xFF)
                  <$> seq (rng_calls w) 32)
     /\ rng_calls (snd (generatePrivateKey libc_rand key_id key_type w))
        = (rng_calls w + 32)%nat)
  /\ (16 <= key_id ->
      fst (generatePrivateKey libc_rand key_id key_type w) = false
      /\ device (snd (generatePrivateKey libc_rand key_id key_type w))
         = set_lastError 8 (device w)
      /\ rng_calls (snd (generatePrivateKey libc_rand key_id key_type w))
         = (rng_calls w + 32)%nat).
Proof.
  unfold generatePrivateKey, generateRandomNumber.
  rewrite generateRandomNumber_loop_closed. unfold on_device.
  cbn [device rng_seed rng_calls dispatches].
  change (Z.to_nat 32) with 32%nat.
  set (random := (fun k => Z.land (libc_rand (rng_seed w) k) 0xFF)
                   <$> seq (rng_calls w) 32).
  assert (Hrandom : length random = 32%nat).
  { unfold random. rewrite length_fmap, length_seq. reflexivity. }
  split.
  - intros Hid Hdata. unfold storeKey.
    assert (Hlow : (16 <=? key_id) = false) by (apply Z.leb_gt; lia).
    rewrite Hlow, u16_small by lia. unfold write, read.
    change (32 <? 32) with false. cbv iota.
    change (zone_switch ZONE_DATA) with (Some (PtrData, DATA_SIZE)).
    cbv iota beta.
    assert (Hfit : (DATA_SIZE <? 32 * key_id + 32) = false)
      by (apply Z.ltb_ge; unfold DATA_SIZE; lia).
    rewrite Hfit.
    cbn [fst snd device with_device rng_calls zone_store zone_load dataZone
           set_dataZone].
    split; [reflexivity |]. split; [| reflexivity].
    rewrite memcpy_from_to; [reflexivity | rewrite Hrandom; reflexivity | lia].
  - intros Hid.
    rewrite storeKey_rejects_slot_ge_16 by exact Hid.
    cbn [fst snd device with_device rng_calls]. repeat split.
Qed.

End DispatchProperties.

Lemma sendCommand_builds_frame_witness :
  length (commandPacket (device (power_on 5))) = 128%nat
  /\ (length [9; 8; 7] <= 121)%nat
  /\ 0 <= 0x1234 < 65536
  /\ exists crc w',
       sendCommand sample_rand CMD_RANDOM 0 0x1234 (Some [9; 8; 7])
         (Z.of_nat (length [9; 8; 7])) (power_on 5) = Some (true, w')
       /\ calculateCRC (frame_body CMD_RANDOM 0 0x1234 [9; 8; 7])
            (Z.of_nat (length (frame_body CMD_RANDOM 0 0x1234 [9; 8; 7])))
          = Some crc
       /\ commandPacket (device w')
          = CMD_COMMAND :: frame_body CMD_RANDOM 0 0x1234 [9; 8; 7]
            ++ u8 crc
            :: drop (7 + length [9; 8; 7]) (commandPacket (device (power_on 5)))
       /\ packetPos (device w') = packetPos (device (power_on 5))
       /\ dispatches w' = S (dispatches (power_on 5))
       /\ same_zones (device (power_on 5)) (device w').
Proof.
  split; [reflexivity |]. split; [cbn; lia |]. split; [lia |].
  apply (sendCommand_builds_frame sample_rand CMD_RANDOM 0 0x1234 [9; 8; 7]
           (power_on 5)); [reflexivity | cbn; lia | lia].
Defined.

Lemma sendCommand_fields_decoded_witness :
  length (commandPacket (device (power_on 5))) = 128%nat
  /\ (length [9; 8; 7] <= 121)%nat
  /\ 0 <= 0xBEEF < 65536
  /\ exists w',
       sendCommand sample_rand CMD_INFO 0x80 0xBEEF (Some [9; 8; 7])
         (Z.of_nat (length [9; 8; 7])) (power_on 5) = Some (true, w')
       /\ frame_command (device w') = CMD_INFO
       /\ frame_p1 (device w') = 0x80
       /\ frame_p2 (device w') = 0xBEEF.
Proof.
  split; [reflexivity |]. split; [cbn; lia |]. split; [lia |].
  apply (sendCommand_fields_decoded sample_rand CMD_INFO 0x80 0xBEEF [9; 8; 7]
           (power_on 5)); [reflexivity | cbn; lia | lia].
Defined.

Lemma processCommand_stub_opcodes_witness :
  (In (frame_command (device (sample_world CMD_LOCK)))
      [CMD_NONCE; CMD_GENKEY; CMD_SIGN; CMD_VERIFY; CMD_READ; CMD_WRITE;
       CMD_LOCK; CMD_INFO]
   /\ exists t, 1 <= t <= 115
        /\ processCommand sample_rand (sample_world CMD_LOCK)
           = mkWorld (simulateExecutionTime t (device (sample_world CMD_LOCK)))
               (rng_seed (sample_world CMD_LOCK))
               (rng_calls (sample_world CMD_LOCK))
               (S (dispatches (sample_world CMD_LOCK))))
  /\ (~ In (frame_command (device (sample_world 0xEE)))
        [CMD_RANDOM; CMD_NONCE; CMD_GENKEY; CMD_SIGN; CMD_VERIFY; CMD_READ;
         CMD_WRITE; CMD_LOCK; CMD_INFO]
      /\ processCommand sample_rand (sample_world 0xEE)
         = mkWorld (set_lastError 7 (device (sample_world 0xEE)))
             (rng_seed (sample_world 0xEE)) (rng_calls (sample_world 0xEE))
             (S (dispatches (sample_world 0xEE)))).
Proof.
  destruct (processCommand_stub_opcodes sample_rand (sample_world CMD_LOCK))
    as [Hstub _].
  destruct (processCommand_stub_opcodes sample_rand (sample_world 0xEE))
    as [_ Hunknown].
  assert (Hin : In (frame_command (device (sample_world CMD_LOCK)))
                  [CMD_NONCE; CMD_GENKEY; CMD_SIGN; CMD_VERIFY; CMD_READ;
                   CMD_WRITE; CMD_LOCK; CMD_INFO]).
  { vm_compute. intuition congruence. }
  assert (Hout : ~ In (frame_command (device (sample_world 0xEE)))
                     [CMD_RANDOM; CMD_NONCE; CMD_GENKEY; CMD_SIGN; CMD_VERIFY;
                      CMD_READ; CMD_WRITE; CMD_LOCK; CMD_INFO]).
  { vm_compute. intuition discriminate. }
  split.
  - split; [exact Hin | exact (Hstub Hin)].
  - split; [exact Hout | exact (Hunknown Hout)].
Defined.

Lemma processCommand_random_witness :
  length (responsePacket (device (sample_world CMD_RANDOM))) = 128%nat
  /\ frame_command (device (sample_world CMD_RANDOM)) = CMD_RANDOM
  /\ take 4 (responsePacket
               (device (processCommand sample_rand (sample_world CMD_RANDOM))))
     = [0; 7; 8; 9]
  /\ responsePos (device (processCommand sample_rand (sample_world CMD_RANDOM)))
     = 0
  /\ executionTime
       (device (processCommand sample_rand (sample_world CMD_RANDOM))) = 23.
Proof.
  destruct (processCommand_random sample_rand (sample_world CMD_RANDOM))
    as (Hrp & Hpos & Htime & _); [reflexivity | reflexivity |].
  split; [reflexivity |]. split; [reflexivity |].
  split; [rewrite Hrp; reflexivity |]. split; [exact Hpos | exact Htime].
Defined.

Lemma random_response_pulled_witness :
  length (responsePacket (device (sample_world CMD_RANDOM))) = 128%nat
  /\ frame_command (device (sample_world CMD_RANDOM)) = CMD_RANDOM
  /\ (2 <= 95)%nat
  /\ fst (take_response (33 + 2)
            (device (processCommand sample_rand (sample_world CMD_RANDOM))))
     = 0 :: seqZ 7 32 ++ [0; 0].
Proof.
  split; [reflexivity |]. split; [reflexivity |]. split; [lia |].
  rewrite (random_response_pulled sample_rand (sample_world CMD_RANDOM) 2);
    [vm_compute; reflexivity | reflexivity | reflexivity | lia].
Defined.

Lemma generateRandomNumber_bytes_witness :
  0 <= 4
  /\ fst (generateRandomNumber sample_rand 4 (power_on 254)) = [254; 255; 0; 1]
  /\ rng_calls (snd (generateRandomNumber sample_rand 4 (power_on 254))) = 4%nat.
Proof.
  destruct (generateRandomNumber_bytes sample_rand 4 (power_on 254))
    as (Hbytes & _ & _ & Hcalls & _); [lia |].
  split; [lia |]. split; [rewrite Hbytes | rewrite Hcalls]; reflexivity.
Defined.

Lemma generatePrivateKey_draws_first_witness :
  (0 <= 2 < 16 /\ length (dataZone (device (power_on 7))) = 1024%nat
   /\ fst (generatePrivateKey sample_rand 2 0x04 (power_on 7)) = true
   /\ fst (read (device (snd (generatePrivateKey sample_rand 2 0x04 (power_on 7))))
             ZONE_DATA (32 * 2) 32)
      = Some (seqZ 7 32))
  /\ (16 <= 16
      /\ fst (generatePrivateKey sample_rand 16 0x04 (power_on 7)) = false
      /\ lastError
           (device (snd (generatePrivateKey sample_rand 16 0x04 (power_on 7))))
         = 8
      /\ rng_calls (snd (generatePrivateKey sample_rand 16 0x04 (power_on 7)))
         = 32%nat).
Proof.
  destruct (generatePrivateKey_draws_first sample_rand 2 0x04 (power_on 7))
    as [Hvalid _].
  destruct (generatePrivateKey_draws_first sample_rand 16 0x04 (power_on 7))
    as [_ Hinvalid].
  split.
  - destruct Hvalid as (Hok & Hback & _); [lia | reflexivity |].
    split; [lia |]. split; [reflexivity |]. split; [exact Hok |].
    rewrite Hback. reflexivity.
  - destruct Hinvalid as (Hfail & Hdev & Hcalls); [lia |].
    split; [lia |]. split; [exact Hfail |].
    split; [rewrite Hdev; reflexivity | rewrite Hcalls; reflexivity].
Defined.

(** ** The error code *)








Lemma computeHMAC_snd (d : ATECC608) (key_id : Z) (message : list Z) :
  snd (computeHMAC d key_id message)
  = snd (read d ZONE_DATA (u16 (32 * key_id)) 32).
Proof.
  unfold computeHMAC.
  destruct (read d ZONE_DATA (u16 (32 * key_id)) 32) as [[key |] d'];
    reflexivity.
Qed.

Lemma deriveKey_snd (d : ATECC608) (parent_key_id : Z) :
  snd (deriveKey d parent_key_id)
  = snd (read d ZONE_DATA (u16 (32 * parent_key_id)) 32).
Proof.
  unfold deriveKey.
  destruct (read d ZONE_DATA (u16 (32 * parent_key_id)) 32) as [[key |] d'];
    reflexivity.
Qed.


Section ErrorProperties.

Variable libc_rand : Z -> nat -> Z.

Lemma generatePrivateKey_device (key_id key_type : Z) (w : World) :
  device (snd (generatePrivateKey libc_rand key_id key_type w))
  = snd (storeKey (device w) key_id
           ((fun k => Z.land (libc_rand (rng_seed w) k) 0xFF)
              <$> seq (rng_calls w) 32)
           key_type).
Proof.
  unfold generatePrivateKey, generateRandomNumber.
  rewrite generateRandomNumber_loop_closed. unfold on_device.
  cbn [device]. change (Z.to_nat 32) with 32%nat.
  destruct (storeKey (device w) key_id _ key_type) as [ok d']. reflexivity.
Qed.





End ErrorProperties.

(** ** Sizes, byte ranges and cursors *)

Lemma forallb_is_u8_Forall (l : list Z) :
  forallb is_u8 l = true <-> Forall (fun b => 0 <= b < 256) l.
Proof.
  rewrite forallb_forall, Forall_forall. split; intros H x Hx.
  - apply is_u8_range, H, Hx.
  - apply is_u8_range, H, Hx.
Qed.

Lemma invariant_reflect (d : ATECC608) :
  well_formed d = true /\ cursors_in_bounds d = true <-> DeviceInvariant d.
Proof.
  unfold well_formed, cursors_in_bounds, MAX_PACKET_SIZE.
  rewrite !andb_true_iff, !Nat.eqb_eq, !is_u8_range, !forallb_is_u8_Forall,
    !Z.leb_le.
  split.
  - intros H. decompose [and] H.
    constructor; unfold bytes_of_size; repeat split; first [assumption | lia].
  - intros [[? ?] [? ?] [? ?] [? ?] [? ?] ? ? ?].
    repeat split; first [assumption | lia].
Qed.

Lemma bytes_of_size_insert (n i : nat) (x : Z) (l : list Z) :
  bytes_of_size n l -> 0 <= x < 256 -> bytes_of_size n (<[i := x]> l).
Proof.
  intros [Hlen Hall] Hx. split.
  - rewrite length_insert. exact Hlen.
  - apply Forall_insert; assumption.
Qed.

Lemma bytes_of_size_memcpy_to (n : nat) (l : list Z) (off : Z) (src : list Z)
    (len : Z) :
  bytes_of_size n l -> Forall (fun b => 0 <= b < 256) src ->
  bytes_of_size n (memcpy_to l off src len).
Proof.
  intros [Hlen Hall] Hsrc. unfold memcpy_to. split.
  - rewrite length_inserts. exact Hlen.
  - apply Forall_inserts; [exact Hall | apply Forall_take, Hsrc].
Qed.

Lemma invariant_set_lastError (e : Z) (d : ATECC608) :
  0 <= e < 256 -> DeviceInvariant d -> DeviceInvariant (set_lastError e d).
Proof. intros He [? ? ? ? ? ? ? ?]. constructor; assumption. Qed.

Lemma read_invariant (d : ATECC608) (zone address len : Z) :
  DeviceInvariant d -> DeviceInvariant (snd (read d zone address len)).
Proof.
  intros Hinv. unfold read.
  destruct (32 <? len); [apply invariant_set_lastError; [lia | exact Hinv] |].
  destruct (zone_switch zone) as [[source max_len] |];
    [| apply invariant_set_lastError; [lia | exact Hinv]].
  destruct (max_len <? address + len);
    [apply invariant_set_lastError; [lia | exact Hinv] | exact Hinv].
Qed.

Lemma write_invariant
    (d : ATECC608) (zone address : Z) (data : list Z) (len : Z) :
  Forall (fun b => 0 <= b < 256) data ->
  DeviceInvariant d -> DeviceInvariant (snd (write d zone address data len)).
Proof.
  intros Hdata Hinv. unfold write.
  destruct (32 <? len); [apply invariant_set_lastError; [lia | exact Hinv] |].
  destruct (zone_switch zone) as [[dest max_len] |];
    [| apply invariant_set_lastError; [lia | exact Hinv]].
  destruct (max_len <? address + len);
    [apply invariant_set_lastError; [lia | exact Hinv] |].
  destruct Hinv as [? ? ? ? ? ? ? ?].
  destruct dest; constructor; cbn; try assumption;
    apply bytes_of_size_memcpy_to; assumption.
Qed.

Lemma lockConfigZone_invariant (d : ATECC608) :
  DeviceInvariant d -> DeviceInvariant (snd (lockConfigZone d)).
Proof.
  intros [? ? ? ? ? ? ? ?]. constructor; cbn; try assumption.
  apply bytes_of_size_insert; [assumption | lia].
Qed.

Lemma lockDataAndOTPZones_invariant (d : ATECC608) :
  DeviceInvariant d -> DeviceInvariant (snd (lockDataAndOTPZones d)).
Proof.
  intros [? ? ? ? ? ? ? ?]. constructor; cbn; try assumption.
  apply bytes_of_size_insert; [assumption | lia].
Qed.

Lemma storeKey_invariant
    (d : ATECC608) (key_id : Z) (key : list Z) (key_type : Z) :
  Forall (fun b => 0 <= b < 256) key ->
  DeviceInvariant d -> DeviceInvariant (snd (storeKey d key_id key key_type)).
Proof.
  intros Hkey Hinv. unfold storeKey.
  destruct (16 <=? key_id);
    [apply invariant_set_lastError; [lia | exact Hinv] |].
  apply write_invariant; assumption.
Qed.

Lemma read_byte_invariant (d : ATECC608) :
  DeviceInvariant d -> DeviceInvariant (snd (atecc608_read_byte d)).
Proof.
  intros Hinv. unfold atecc608_read_byte, MAX_PACKET_SIZE.
  destruct (responsePos d <? 128) eqn:Hroom; [| exact Hinv].
  apply Z.ltb_lt in Hroom. destruct Hinv as [? ? ? ? ? ? ? ?].
  rewrite u8_small by lia. constructor; cbn; try assumption. lia.
Qed.

Lemma random_bytes_Forall (f : nat -> Z) (l : list nat) :
  Forall (fun b => 0 <= b < 256) ((fun k => Z.land (f k) 0xFF) <$> l).
Proof.
  apply Forall_fmap, Forall_forall. intros k _. apply land_255_range.
Qed.

Section InvariantProperties.

Variable libc_rand : Z -> nat -> Z.

Lemma processCommand_invariant (w : World) :
  DeviceInvariant (device w) ->
  DeviceInvariant (device (processCommand libc_rand w)).
Proof.
  intros Hinv. unfold processCommand, generateRandomNumber. cbv zeta.
  rewrite generateRandomNumber_loop_closed. cbn [device].
  destruct Hinv as [? ? ? ? Hresp ? ? ?].
  repeat match goal with
         | |- context [if ?c then _ else _] => destruct c
         end;
    constructor; cbn; try assumption; try lia.
  apply bytes_of_size_memcpy_to.
  - apply bytes_of_size_memcpy_to; [exact Hresp | apply random_bytes_Forall].
  - apply (bytes_of_size_memcpy_to 128);
      [exact Hresp | apply random_bytes_Forall].
Qed.

Lemma write_byte_invariant (byte : Z) (w : World) :
  0 <= byte < 256 ->
  DeviceInvariant (device w) ->
  DeviceInvariant (device (atecc608_write_byte libc_rand byte w)).
Proof.
  intros Hbyte Hinv. unfold atecc608_write_byte, MAX_PACKET_SIZE. cbv zeta.
  assert (Hstored :
            DeviceInvariant
              (if packetPos (device w) <? 128
               then set_packetPos (u8 (packetPos (device w) + 1))
                      (set_commandPacket
                         (<[Z.to_nat (packetPos (device w)) := byte]>
                            (commandPacket (device w))) (device w))
               else device w)).
  { destruct (packetPos (device w) <? 128) eqn:Hroom; [| exact Hinv].
    apply Z.ltb_lt in Hroom. destruct Hinv as [? ? ? ? ? ? ? ?].
    rewrite u8_small by lia. constructor; cbn; try assumption; try lia.
    apply bytes_of_size_insert; assumption. }
  set (d1 := if packetPos (device w) <? 128 then _ else device w) in *.
  assert (Hzero : forall d : ATECC608,
             DeviceInvariant d -> DeviceInvariant (set_packetPos 0 d)).
  { intros d [? ? ? ? ? ? ? ?]. constructor; cbn; try assumption. lia. }
  repeat match goal with
         | |- context [if ?c then _ else _] => destruct c
         end;
    cbn [device with_device]; try exact Hstored.
  - apply Hzero, Hstored.
  - apply Hzero, processCommand_invariant. exact Hstored.
Qed.

Lemma exec_invariant (o : Op) (w : World) :
  op_typed o = true ->
  DeviceInvariant (device w) ->
  DeviceInvariant (device (exec libc_rand o w)).
Proof.
  intros Htyped Hinv. destruct o; cbn [exec device with_device op_typed] in *.
  - apply read_invariant, Hinv.
  - repeat (apply andb_true_iff in Htyped; destruct Htyped as [Htyped ?]).
    apply write_invariant; [apply forallb_is_u8_Forall; assumption | exact Hinv].
  - apply lockConfigZone_invariant, Hinv.
  - apply lockDataAndOTPZones_invariant, Hinv.
  - exact Hinv.
  - exact Hinv.
  - repeat (apply andb_true_iff in Htyped; destruct Htyped as [Htyped ?]).
    apply storeKey_invariant; [apply forallb_is_u8_Forall; assumption | exact Hinv].
  - rewrite generatePrivateKey_device.
    apply storeKey_invariant; [apply random_bytes_Forall | exact Hinv].
  - rewrite computeHMAC_snd. apply read_invariant, Hinv.
  - rewrite deriveKey_snd. apply read_invariant, Hinv.
  - apply processCommand_invariant, Hinv.
  - apply write_byte_invariant; [apply is_u8_range, Htyped | exact Hinv].
  - apply read_byte_invariant, Hinv.
Qed.

(** X14: the sizes of the three zones and the two packet buffers, the byte
    range of all their cells and of [lastError], and both cursors being at
    most 128 are kept by every sequence of operations whose byte arguments
    are bytes: no operation stores past a buffer or leaves a cursor beyond
    it. *)
Theorem run_keeps_well_formed (ops : list Op) (w : World) :
  well_formed (device w) = true ->
  cursors_in_bounds (device w) = true ->
  forallb op_typed ops = true ->
  well_formed (device (run libc_rand ops w)) = true
  /\ cursors_in_bounds (device (run libc_rand ops w)) = true.
Proof.
  intros Hwf Hcur Hops. apply invariant_reflect.
  assert (Hinv : DeviceInvariant (device w))
    by (apply invariant_reflect; split; assumption).
  clear Hwf Hcur. revert w Hinv.
  induction ops as [| o ops IH]; intros w Hinv; [exact Hinv |].
  cbn [forallb] in Hops. apply andb_true_iff in Hops. destruct Hops as [Ho Hops].
  cbn [run foldl]. apply (IH Hops). apply exec_invariant; assumption.
Qed.

End InvariantProperties.

Lemma run_keeps_well_formed_witness :
  well_formed (device (power_on 7)) = true
  /\ cursors_in_bounds (device (power_on 7)) = true
  /\ forallb op_typed sample_ops = true
  /\ well_formed (device (run sample_rand sample_ops (power_on 7))) = true
  /\ cursors_in_bounds (device (run sample_rand sample_ops (power_on 7))) = true.
Proof.
  split; [vm_compute; reflexivity |]. split; [vm_compute; reflexivity |].
  split; [vm_compute; reflexivity |].
  apply (run_keeps_well_formed sample_rand sample_ops (power_on 7));
    vm_compute; reflexivity.
Defined.

(** ** The framer when no frame completes *)

Lemma framer_state_same (w : World) :
  framer_state (commandPacket (device w)) (packetPos (device w)) w = w.
Proof. destruct w as [d seed calls n]. destruct d. reflexivity. Qed.

Section FramerFilling.

Variable libc_rand : Z -> nat -> Z.

Lemma write_byte_marker_at_0 (packet : list Z) (w : World) :
  atecc608_write_byte libc_rand 0x03 (framer_state packet 0 w)
  = framer_state (<[0%nat := 0x03]> packet) 0 w.
Proof. reflexivity. Qed.

Lemma write_byte_first_at_0 (packet : list Z) (byte : Z) (w : World) :
  byte <> 0x03 ->
  atecc608_write_byte libc_rand byte (framer_state packet 0 w)
  = framer_state (<[0%nat := byte]> packet) 1 w.
Proof.
  intros Hbyte. unfold atecc608_write_byte. cbv zeta.
  cbn [device framer_state with_device packetPos set_packetPos commandPacket
         set_commandPacket].
  change (0 <? MAX_PACKET_SIZE) with true. cbv iota.
  cbn [device framer_state with_device packetPos set_packetPos commandPacket
         set_commandPacket].
  change (u8 (0 + 1) =? 1) with true. cbv iota.
  apply Z.eqb_neq in Hbyte. rewrite Hbyte. reflexivity.
Qed.

Lemma write_byte_later (packet : list Z) (pos byte : Z) (w : World) :
  1 <= pos < 128 -> byte_at packet 0 <> CMD_COMMAND ->
  atecc608_write_byte libc_rand byte (framer_state packet pos w)
  = framer_state (<[Z.to_nat pos := byte]> packet) (pos + 1) w.
Proof.
  intros Hpos Hfirst. unfold atecc608_write_byte, MAX_PACKET_SIZE. cbv zeta.
  cbn [device framer_state with_device packetPos set_packetPos commandPacket
         set_commandPacket].
  assert (Hroom : (pos <? 128) = true) by (apply Z.ltb_lt; lia).
  rewrite Hroom.
  cbn [device framer_state with_device packetPos set_packetPos commandPacket
         set_commandPacket].
  rewrite u8_small by lia.
  assert (Hne : (pos + 1 =? 1) = false) by (apply Z.eqb_neq; lia).
  rewrite Hne, byte_at_insert_later by lia.
  apply Z.eqb_neq in Hfirst. rewrite Hfirst, andb_false_r. reflexivity.
Qed.

Lemma write_byte_full (packet : list Z) (byte : Z) (w : World) :
  byte_at packet 0 <> CMD_COMMAND ->
  atecc608_write_byte libc_rand byte (framer_state packet 128 w)
  = framer_state packet 128 w.
Proof.
  intros Hfirst. unfold atecc608_write_byte, MAX_PACKET_SIZE. cbv zeta.
  cbn [device framer_state with_device packetPos set_packetPos commandPacket
         set_commandPacket].
  change (128 <? 128) with false. cbv iota.
  cbn [device framer_state with_device packetPos set_packetPos commandPacket
         set_commandPacket].
  change (128 =? 1) with false. cbv iota.
  apply Z.eqb_neq in Hfirst. rewrite Hfirst, andb_false_r. reflexivity.
Qed.

Lemma deliver_app (bytes more : list Z) (w : World) :
  deliver libc_rand (bytes ++ more) w
  = deliver libc_rand more (deliver libc_rand bytes w).
Proof. unfold deliver. apply foldl_app. Qed.

Lemma deliver_markers_then_first
    (k : nat) (packet : list Z) (byte : Z) (w : World) :
  byte <> 0x03 ->
  deliver libc_rand (replicate k 0x03 ++ [byte]) (framer_state packet 0 w)
  = framer_state (<[0%nat := byte]> packet) 1 w.
Proof.
  intros Hbyte. revert packet. induction k as [| k IH]; intros packet.
  - cbn [replicate app deliver foldl]. apply write_byte_first_at_0, Hbyte.
  - cbn [replicate app deliver foldl]. rewrite write_byte_marker_at_0.
    fold (deliver libc_rand (replicate k 3 ++ [byte])
            (framer_state (<[0%nat := 3]> packet) 0 w)).
    rewrite IH, list_insert_insert_eq. reflexivity.
Qed.

Lemma deliver_fill (bytes packet : list Z) (pos : Z) (w : World) :
  1 <= pos -> pos + Z.of_nat (length bytes) <= 128 ->
  byte_at packet 0 <> CMD_COMMAND ->
  deliver libc_rand bytes (framer_state packet pos w)
  = framer_state (list_inserts (Z.to_nat pos) bytes packet)
      (pos + Z.of_nat (length bytes)) w.
Proof.
  revert packet pos. induction bytes as [| b bytes IH];
    intros packet pos Hpos Hfit Hfirst.
  - cbn [deliver foldl list_inserts length]. rewrite Z.add_0_r. reflexivity.
  - cbn [length] in Hfit. cbn [deliver foldl].
    rewrite write_byte_later by (assumption || lia).
    fold (deliver libc_rand bytes
            (framer_state (<[Z.to_nat pos := b]> packet) (pos + 1) w)).
    rewrite IH by (rewrite ?byte_at_insert_later; assumption || lia).
    cbn [list_inserts length].
    replace (Z.to_nat (pos + 1)) with (S (Z.to_nat pos)) by lia.
    rewrite list_insert_inserts_lt by lia.
    f_equal. lia.
Qed.

Lemma deliver_full (more packet : list Z) (w : World) :
  byte_at packet 0 <> CMD_COMMAND ->
  deliver libc_rand more (framer_state packet 128 w)
  = framer_state packet 128 w.
Proof.
  intros Hfirst. induction more as [| b more IH]; [reflexivity |].
  cbn [deliver foldl]. rewrite write_byte_full by exact Hfirst. exact IH.
Qed.

(** X15: with the command cursor at 0 and a 128-byte command buffer, any
    number of 0x03 bytes followed by a byte other than 0x03 and 127 more
    bytes leaves exactly these 128 bytes in the command buffer and the
    cursor at 128; every byte delivered after that is dropped, and nothing
    else in the world has changed: no dispatch, no error code, no response. *)
Theorem framer_fills_then_ignores
    (w : World) (k : nat) (first : Z) (rest more : list Z) :
  packetPos (device w) = 0 ->
  length (commandPacket (device w)) = 128%nat ->
  first <> 0x03 ->
  length rest = 127%nat ->
  deliver libc_rand (replicate k 0x03 ++ first :: rest ++ more) w
  = framer_state (first :: rest) 128 w.
Proof.
  intros Hpos Hlen Hfirst Hrest.
  rewrite <- (framer_state_same w) at 1. rewrite Hpos.
  change (first :: rest ++ more) with ([first] ++ rest ++ more).
  rewrite app_assoc, deliver_app, deliver_markers_then_first by exact Hfirst.
  assert (Hhead : byte_at (<[0%nat := first]> (commandPacket (device w))) 0
                  <> CMD_COMMAND).
  { destruct (commandPacket (device w)); [discriminate Hlen | exact Hfirst]. }
  rewrite deliver_app, deliver_fill by (rewrite ?Hrest; assumption || lia).
  rewrite Hrest. change (1 + Z.of_nat 127) with 128.
  assert (Hpacket : list_inserts (Z.to_nat 1) rest
                      (<[0%nat := first]> (commandPacket (device w)))
                    = first :: rest).
  { destruct (commandPacket (device w)) as [| c tail]; [discriminate Hlen |].
    cbn [length] in Hlen. change (Z.to_nat 1) with 1%nat.
    cbn [insert list_insert list_alter]. rewrite list_inserts_cons. f_equal.
    rewrite <- (app_nil_r tail), list_inserts_0_r by lia. apply app_nil_r. }
  rewrite Hpacket. apply deliver_full.
  exact Hfirst.
Qed.

End FramerFilling.

Lemma framer_fills_then_ignores_witness :
  packetPos (device (power_on 7)) = 0
  /\ length (commandPacket (device (power_on 7))) = 128%nat
  /\ 0x1B <> 0x03
  /\ length (seqZ 1 127) = 127%nat
  /\ deliver sample_rand
       (replicate 2 0x03 ++ 0x1B :: seqZ 1 127 ++ [0x03; 0x03; 0x1B; 0x00])
       (power_on 7)
     = framer_state (0x1B :: seqZ 1 127) 128 (power_on 7).
Proof.
  split; [reflexivity |]. split; [reflexivity |]. split; [discriminate |].
  split; [reflexivity |].
  apply (framer_fills_then_ignores sample_rand (power_on 7) 2 0x1B (seqZ 1 127)
           [0x03; 0x03; 0x1B; 0x00]);
    [reflexivity | reflexivity | discriminate | reflexivity].
Defined.

(** ** What a successful [write] changes *)

Lemma memcpy_to_splice (dest : list Z) (off : Z) (src : list Z) (n : Z) :
  0 <= off -> 0 <= n ->
  (Z.to_nat n <= length src)%nat ->
  (Z.to_nat off + Z.to_nat n <= length dest)%nat ->
  memcpy_to dest off src n
  = take (Z.to_nat off) dest ++ take (Z.to_nat n) src
    ++ drop (Z.to_nat off + Z.to_nat n) dest.
Proof.
  intros Hoff Hn Hsrc Hfit. unfold memcpy_to.
  rewrite <- (take_drop (Z.to_nat off) dest) at 1.
  replace (Z.to_nat off) with (length (take (Z.to_nat off) dest) + 0)%nat at 1
    by (rewrite length_take; lia).
  rewrite list_inserts_app_r. f_equal.
  rewrite <- (take_drop (Z.to_nat n) (drop (Z.to_nat off) dest)) at 1.
  rewrite list_inserts_0_r by (rewrite !length_take, length_drop; lia).
  rewrite drop_drop. reflexivity.
Qed.

(** X16: a [write] of at most 32 bytes that fits the selected zone returns
    [true] and replaces bytes [address .. address+len) of that zone by the
    first [len] bytes of [data]; the bytes before and after the range, the
    other two zones, [lastError] and the rest of the device stay as they
    were. *)
Theorem write_changes_only_range
    (d : ATECC608) (zone address : Z) (data : list Z) (len : Z)
    (p : ZonePtr) (size : Z) :
  zone_switch zone = Some (p, size) ->
  length (zone_load d p) = Z.to_nat size ->
  0 <= address -> 0 <= len <= 32 -> address + len <= size ->
  (Z.to_nat len <= length data)%nat ->
  write d zone address data len
  = (true,
     zone_store p
       (take (Z.to_nat address) (zone_load d p) ++ take (Z.to_nat len) data
        ++ drop (Z.to_nat address + Z.to_nat len) (zone_load d p)) d).
Proof.
  intros Hsw Hsize Haddr Hlen Hfit Hdata. unfold write.
  assert (Hl : (32 <? len) = false) by (apply Z.ltb_ge; lia).
  assert (Hr : (size <? address + len) = false) by (apply Z.ltb_ge; lia).
  rewrite Hl, Hsw, Hr. rewrite memcpy_to_splice by lia. reflexivity.
Qed.

Lemma write_changes_only_range_witness :
  zone_switch 5 = Some (PtrOtp, OTP_SIZE)
  /\ length (zone_load fresh_device PtrOtp) = Z.to_nat OTP_SIZE
  /\ 0 <= 60 /\ 0 <= 3 <= 32 /\ 60 + 3 <= OTP_SIZE
  /\ (Z.to_nat 3 <= length [7; 8; 9; 10])%nat
  /\ write fresh_device 5 60 [7; 8; 9; 10] 3
     = (true,
        set_otpZone (replicate 60 0 ++ [7; 8; 9] ++ [0]) fresh_device).
Proof.
  split; [reflexivity |]. split; [reflexivity |]. split; [lia |].
  split; [lia |]. split; [vm_compute; discriminate |].
  split; [vm_compute; lia |].
  rewrite (write_changes_only_range fresh_device 5 60 [7; 8; 9; 10] 3
             PtrOtp OTP_SIZE);
    [reflexivity | reflexivity | reflexivity | lia | lia
     | vm_compute; discriminate | vm_compute; lia].
Defined.

(** ** The two locks *)

(** X17: the two lock functions are independent of each other: locking the
    data and OTP zones does not change [isConfigLocked] and locking the
    config zone does not change [isDataAndOTPLocked]; they commute, each is
    idempotent, and each leaves every config byte but its own as it was. *)
Theorem locks_independent (d : ATECC608) :
  isConfigLocked (snd (lockDataAndOTPZones d)) = isConfigLocked d
  /\ isDataAndOTPLocked (snd (lockConfigZone d)) = isDataAndOTPLocked d
  /\ snd (lockConfigZone (snd (lockDataAndOTPZones d)))
     = snd (lockDataAndOTPZones (snd (lockConfigZone d)))
  /\ snd (lockConfigZone (snd (lockConfigZone d))) = snd (lockConfigZone d)
  /\ snd (lockDataAndOTPZones (snd (lockDataAndOTPZones d)))
     = snd (lockDataAndOTPZones d)
  /\ (forall i : nat, i <> 87%nat ->
        configZone (snd (lockConfigZone d)) !! i = configZone d !! i)
  /\ (forall i : nat, i <> 86%nat ->
        configZone (snd (lockDataAndOTPZones d)) !! i = configZone d !! i).
Proof.
  unfold isConfigLocked, isDataAndOTPLocked, lockConfigZone,
    lockDataAndOTPZones, set_configZone.
  cbn [snd configZone state lastError otpZone dataZone commandPacket
         responsePacket packetPos responsePos executionTime].
  split; [rewrite list_lookup_insert_ne by lia; reflexivity |].
  split; [rewrite list_lookup_insert_ne by lia; reflexivity |].
  split; [rewrite list_insert_insert_ne by lia; reflexivity |].
  split; [rewrite list_insert_insert_eq; reflexivity |].
  split; [rewrite list_insert_insert_eq; reflexivity |].
  split; intros i Hi; apply list_lookup_insert_ne; lia.
Qed.

(** ** Reset and the packet buffers *)

(** X18: [atecc608_reset] does not clear the packet buffers: on a device with
    its 128-byte response buffer, the first [n] bytes pulled after a reset are
    the first [n] bytes the response buffer held before it, and the command
    buffer is unchanged as well. *)
Theorem reset_keeps_packet_bytes (now : Z) (w : World) (n : nat) :
  length (responsePacket (device w)) = 128%nat ->
  (n <= 128)%nat ->
  fst (take_response n (device (atecc608_reset now w)))
  = take n (responsePacket (device w))
  /\ commandPacket (device (atecc608_reset now w)) = commandPacket (device w).
Proof.
  intros Hlen Hn. split; [| reflexivity].
  rewrite take_response_from_start; [reflexivity | exact Hlen | reflexivity | exact Hn].
Qed.

Lemma reset_keeps_packet_bytes_witness :
  length
    (responsePacket
       (device (processCommand sample_rand (sample_world CMD_RANDOM))))
  = 128%nat
  /\ (4 <= 128)%nat
  /\ fst (take_response 4
            (device
               (atecc608_reset 99
                  (processCommand sample_rand (sample_world CMD_RANDOM)))))
     = [0; 7; 8; 9].
Proof.
  split; [reflexivity |]. split; [lia |].
  destruct (reset_keeps_packet_bytes 99
              (processCommand sample_rand (sample_world CMD_RANDOM)) 4)
    as [Hbytes _]; [reflexivity | lia |].
  rewrite Hbytes. reflexivity.
Defined.

(** ** Signatures *)

Section SignatureProperties.

Variable libc_rand : Z -> nat -> Z.

(** The loop of [simulateSignature] in closed form. *)
Lemma simulateSignature_loop_closed
    (n : nat) (i : Z) (message : list Z) (w : World) :
  0 <= i -> i + Z.of_nat n < 256 ->
  simulateSignature_loop libc_rand n i message w
  = ((fun j : nat =>
        u8 (Z.lxor (byte_at message ((i + Z.of_nat j) mod 32))
              (Z.land (libc_rand (rng_seed w) (rng_calls w + j)%nat) 0xFF)))
       <$> seq 0 n,
     mkWorld (device w) (rng_seed w) (rng_calls w + n)%nat (dispatches w)).
Proof.
  revert i w. induction n as [| n IH]; intros i w Hi Hfit.
  - cbn. rewrite Nat.add_0_r. destruct w; reflexivity.
  - cbn [simulateSignature_loop]. unfold rand.
    rewrite u8_small by lia. rewrite IH by lia.
    cbn [device rng_seed rng_calls dispatches seq fmap list_fmap].
    rewrite <- fmap_S_seq, <- list_fmap_compose.
    rewrite Z.add_0_r, Nat.add_0_r.
    replace (S (rng_calls w) + n)%nat with (rng_calls w + S n)%nat by lia.
    f_equal. f_equal. apply list_fmap_ext. intros k j _. cbn.
    replace (i + Z.of_nat (S j)) with (i + 1 + Z.of_nat j) by lia.
    replace (rng_calls w + S j)%nat with (S (rng_calls w + j)) by lia.
    reflexivity.
Qed.

(** X19: for a 32-byte message, [simulateSignature] returns 64 bytes, byte
    [j] being [message[j mod 32]] XOR the [j]-th next output of the generator
    masked with 0xFF; it advances the generator by 64 calls and leaves the
    device untouched, and [simulateVerification] accepts the result. *)
Theorem simulateSignature_bytes (message : list Z) (w : World) :
  length message = 32%nat ->
  forallb is_u8 message = true ->
  length (fst (simulateSignature libc_rand message w)) = 64%nat
  /\ (forall j : nat, (j < 64)%nat ->
        fst (simulateSignature libc_rand message w) !! j
        = Some (Z.lxor (byte_at message (Z.of_nat j mod 32))
                  (Z.land (libc_rand (rng_seed w) (rng_calls w + j)%nat) 0xFF)))
  /\ rng_calls (snd (simulateSignature libc_rand message w))
     = (rng_calls w + 64)%nat
  /\ device (snd (simulateSignature libc_rand message w)) = device w
  /\ simulateVerification message (fst (simulateSignature libc_rand message w))
     = true.
Proof.
  intros Hlen Hbytes. unfold simulateSignature.
  rewrite simulateSignature_loop_closed by lia. cbn [fst snd rng_calls device].
  split; [rewrite length_fmap, length_seq; reflexivity |].
  split; [| repeat split].
  intros j Hj. rewrite list_lookup_fmap, lookup_seq_lt by exact Hj.
  cbn [fmap option_fmap option_map]. f_equal. rewrite Z.add_0_l.
  apply u8_lxor_bytes; [apply byte_at_range, Hbytes | apply land_255_range].
Qed.

End SignatureProperties.

Lemma simulateSignature_bytes_witness :
  length (seqZ 0 32) = 32%nat
  /\ forallb is_u8 (seqZ 0 32) = true
  /\ length (fst (simulateSignature sample_rand (seqZ 0 32) (power_on 7)))
     = 64%nat
  /\ fst (simulateSignature sample_rand (seqZ 0 32) (power_on 7)) !! 33%nat
     = Some (Z.lxor 1 40)
  /\ rng_calls (snd (simulateSignature sample_rand (seqZ 0 32) (power_on 7)))
     = 64%nat.
Proof.
  destruct (simulateSignature_bytes sample_rand (seqZ 0 32) (power_on 7))
    as (Hsize & Hbyte & Hcalls & _);
    [reflexivity | vm_compute; reflexivity |].
  split; [reflexivity |]. split; [vm_compute; reflexivity |].
  split; [exact Hsize |].
  split; [rewrite Hbyte by lia; vm_compute; reflexivity | exact Hcalls].
Defined.

(** ** Slot indices from 32 on *)

(** X20: [computeHMAC] and [deriveKey] with a slot index from 32 to 255 fail
    through the range test of [read]: they return failure, set [lastError] to
    3, not to the 8 that [storeKey] uses for a bad slot, and change nothing
    else. *)
Theorem hmac_derive_slot_out_of_range
    (d : ATECC608) (key_id : Z) (message : list Z) :
  32 <= key_id <= 255 ->
  computeHMAC d key_id message = (None, set_lastError 3 d)
  /\ deriveKey d key_id = (None, set_lastError 3 d).
Proof.
  intros Hid.
  assert (Hread : read d ZONE_DATA (u16 (32 * key_id)) 32
                  = (None, set_lastError 3 d)).
  { rewrite u16_small by lia. unfold read.
    change (32 <? 32) with false. cbv iota.
    change (zone_switch ZONE_DATA) with (Some (PtrData, DATA_SIZE)).
    cbv iota beta.
    assert (Hover : (DATA_SIZE <? 32 * key_id + 32) = true)
      by (apply Z.ltb_lt; unfold DATA_SIZE; lia).
    rewrite Hover. reflexivity. }
  unfold computeHMAC, deriveKey. rewrite Hread. split; reflexivity.
Qed.

Lemma hmac_derive_slot_out_of_range_witness :
  32 <= 32 <= 255
  /\ computeHMAC fresh_device 32 (replicate 32 0x5A)
     = (None, set_lastError 3 fresh_device)
  /\ deriveKey fresh_device 32 = (None, set_lastError 3 fresh_device).
Proof.
  split; [lia |].
  apply (hmac_derive_slot_out_of_range fresh_device 32 (replicate 32 0x5A)). lia.
Defined.
